(** * Android component test generator: classification and scaffolds

    A shallow embedding of [tools/android_component_test_generator.py].

    Conventions of the embedding.
    - Python [str] values are modelled as [string]; a character is an
      [ascii], read as a code point below 256.  The character classes of
      [re] ([\w], [\s]) and of [str.rstrip] are the ones Python uses on
      these code points; the content of a file is its decoded text.
    - [pathlib.Path] is a record of an anchor flag and the list of parts.
    - The process state (current directory, file tree, console) is the
      record [world]; effectful functions are written in a state and
      exception monad over it.  The tree holds directories and regular
      files with their text.  A path is located by its parts: no [..] is
      resolved and no link is followed.  A text is read as it is stored,
      which is what a read in text mode does for a text without a carriage
      return.  The errors are the ones of a missing, an existing or a
      misplaced entry; other refusals of the operating system are not
      part of the state.
    - The arithmetic on [float] of the coverage summary is not embedded. *)

From Stdlib Require Import Ascii String.
From stdpp Require Import gmap strings list fin_maps sorting pretty.

Local Open Scope string_scope.
Local Open Scope list_scope.

(** ** Characters *)

Definition nl : string := String "010"%char "".
Definition dq : string := String "034"%char "".

Definition code (c : ascii) : N := N_of_ascii c.

Definition in_range (lo hi : N) (c : ascii) : bool :=
  ((lo <=? code c) && (code c <=? hi))%N.

(** [\w] : the alphanumeric characters and the underscore; below 128 these
    are the digits and the letters, above the Latin-1 letters, superscript
    digits and fractions. *)
Definition is_word (c : ascii) : bool :=
  in_range 48 57 c || in_range 65 90 c || (code c =? 95)%N
  || in_range 97 122 c
  || (code c =? 170)%N || in_range 178 179 c || (code c =? 181)%N
  || in_range 185 186 c || in_range 188 190 c || in_range 192 214 c
  || in_range 216 246 c || in_range 248 255 c.

(** [\s] and [str.isspace]: tab, line feed, vertical tab, form feed,
    carriage return, the four separators 0x1c to 0x1f, the space, the next
    line character 0x85 and the no-break space 0xa0. *)
Definition is_space (c : ascii) : bool :=
  in_range 9 13 c || in_range 28 32 c || (code c =? 133)%N
  || (code c =? 160)%N.

Definition is_dot (c : ascii) : bool := (code c =? 46)%N.
Definition is_slash (c : ascii) : bool := (code c =? 47)%N.
Definition is_newline (c : ascii) : bool := (code c =? 10)%N.

(** [[\w\.]] *)
Definition is_word_or_dot (c : ascii) : bool := is_word c || is_dot c.

(** [.] under [re.S] *)
Definition any_char (c : ascii) : bool := true.

(** ** A backtracking matcher for the patterns of the module

    The constructors are the pieces the patterns are made of.  The matcher
    is written in continuation-passing style, which gives the priorities of
    Python's engine: the left alternative first, the longest repetition
    first for a greedy star and the shortest first for a lazy one. *)

Module Re.

Inductive regex : Type :=
| Lit (s : string)                          (* a literal text *)
| Star (greedy : bool) (p : ascii → bool)   (* [p*] and [p*?] *)
| Plus (p : ascii → bool)                   (* [p+] *)
| WordB                                     (* [\b] *)
| LineStart                                 (* [^] under [re.M] *)
| Alt (r1 r2 : regex)                       (* [r1|r2] *)
| Group (n : nat) (r : regex)               (* the n-th capturing group *)
| Seq (r1 r2 : regex).

(** The position of the matcher: the character just before it, the text
    that remains, the offset, and the groups closed so far. *)
Record cursor := Cursor {
  c_prev : option ascii;
  c_rest : string;
  c_pos : nat;
  c_groups : list (nat * string)
}.

Definition opt_word (o : option ascii) : bool :=
  match o with Some c => is_word c | None => false end.

Definition next_char (s : string) : option ascii :=
  match s with String c _ => Some c | EmptyString => None end.

Definition at_word_boundary (cu : cursor) : bool :=
  xorb (opt_word (c_prev cu)) (opt_word (next_char (c_rest cu))).

Definition at_line_start (cu : cursor) : bool :=
  match c_prev cu with None => true | Some c => is_newline c end.

Definition or_else {A} (x : option A) (y : option A) : option A :=
  match x with Some _ => x | None => y end.

(** Consume the literal [lit] at the cursor. *)
Fixpoint eat_lit (lit : string) (prev : option ascii) (rest : string)
    (pos : nat) : option (option ascii * string * nat) :=
  match lit with
  | EmptyString => Some (prev, rest, pos)
  | String a lit' =>
      match rest with
      | String c rest' =>
          if Ascii.eqb a c then eat_lit lit' (Some c) rest' (S pos) else None
      | EmptyString => None
      end
  end.

Section star.
Context {R : Type} (p : ascii → bool) (gs : list (nat * string))
        (k : cursor → option R).

Fixpoint star_greedy (prev : option ascii) (rest : string) (pos : nat)
    : option R :=
  match rest with
  | String c rest' =>
      if p c
      then or_else (star_greedy (Some c) rest' (S pos))
                   (k (Cursor prev rest pos gs))
      else k (Cursor prev rest pos gs)
  | EmptyString => k (Cursor prev rest pos gs)
  end.

Fixpoint star_lazy (prev : option ascii) (rest : string) (pos : nat)
    : option R :=
  or_else (k (Cursor prev rest pos gs))
    match rest with
    | String c rest' =>
        if p c then star_lazy (Some c) rest' (S pos) else None
    | EmptyString => None
    end.
End star.

Fixpoint run {R : Type} (r : regex) (cu : cursor) (k : cursor → option R)
    : option R :=
  match r with
  | Lit s =>
      match eat_lit s (c_prev cu) (c_rest cu) (c_pos cu) with
      | Some (prev, rest, pos) => k (Cursor prev rest pos (c_groups cu))
      | None => None
      end
  | Star true p =>
      star_greedy p (c_groups cu) k (c_prev cu) (c_rest cu) (c_pos cu)
  | Star false p =>
      star_lazy p (c_groups cu) k (c_prev cu) (c_rest cu) (c_pos cu)
  | Plus p =>
      match c_rest cu with
      | String c rest' =>
          if p c
          then star_greedy p (c_groups cu) k (Some c) rest' (S (c_pos cu))
          else None
      | EmptyString => None
      end
  | WordB => if at_word_boundary cu then k cu else None
  | LineStart => if at_line_start cu then k cu else None
  | Alt r1 r2 => or_else (run r1 cu k) (run r2 cu k)
  | Group n r =>
      run r cu (λ cu',
        k (Cursor (c_prev cu') (c_rest cu') (c_pos cu')
             ((n, substring 0 (c_pos cu' - c_pos cu) (c_rest cu))
                :: c_groups cu')))
  | Seq r1 r2 => run r1 cu (λ cu', run r2 cu' k)
  end.

(** A match object: where the match starts and ends, and its groups. *)
Record match_obj := Match {
  m_start : nat;
  m_end : nat;
  m_groups : list (nat * string)
}.

Definition lookup_group (n : nat) (gs : list (nat * string)) : option string :=
  snd <$> List.find (λ g, Nat.eqb (fst g) n) gs.

(** [match.group(n)]; every group read by the module takes part in each
    match of its pattern, the empty string stands for Python's [None]. *)
Definition group (m : match_obj) (n : nat) : string :=
  default "" (lookup_group n (m_groups m)).

(** The match of [r] that starts exactly at the given position, if any. *)
Definition match_here (r : regex) (prev : option ascii) (rest : string)
    (pos : nat) : option match_obj :=
  run r (Cursor prev rest pos [])
      (λ cu, Some (Match pos (c_pos cu) (c_groups cu))).

(** [pattern.search]: the start positions are tried from left to right. *)
Fixpoint search_from (r : regex) (prev : option ascii) (rest : string)
    (pos : nat) : option match_obj :=
  match match_here r prev rest pos with
  | Some m => Some m
  | None =>
      match rest with
      | String c rest' => search_from r (Some c) rest' (S pos)
      | EmptyString => None
      end
  end.

Definition search (r : regex) (text : string) : option match_obj :=
  search_from r None text 0.

Fixpoint seq (rs : list regex) : regex :=
  match rs with
  | [] => Lit ""
  | [r] => r
  | r :: rs' => Seq r (seq rs')
  end.

End Re.

Import Re.

(** ** The patterns *)

(** [\bclass\s+(\w+).*?(extends|:)\s+[\w\.]*?] *)
Definition class_header : list regex :=
  [ WordB; Lit "class"; Plus is_space; Group 1 (Plus is_word);
    Star false any_char; Group 2 (Alt (Lit "extends") (Lit ":"));
    Plus is_space; Star false is_word_or_dot ].

(** [...(\w*Suffix)\b] *)
Definition suffix_pattern (suffix : string) : regex :=
  seq (class_header
         ++ [Group 3 (Seq (Star true is_word) (Lit suffix)); WordB]).

(** [...Name\b] *)
Definition exact_pattern (name : string) : regex :=
  seq (class_header ++ [Lit name; WordB]).

Definition COMPONENT_PATTERNS : list (string * regex) :=
  [ ("Activity", suffix_pattern "Activity");
    ("Service", suffix_pattern "Service");
    ("BroadcastReceiver", exact_pattern "BroadcastReceiver");
    ("ViewModel", exact_pattern "ViewModel") ].

(** [^\s*package\s+([\w\.]+)] under [re.M] *)
Definition PACKAGE_PATTERN : regex :=
  seq [ LineStart; Star true is_space; Lit "package"; Plus is_space;
        Group 1 (Plus is_word_or_dot) ].

Definition SUPPORTED_EXTENSIONS : list string := [".java"; ".kt"].

(** ** Strings *)

(** [x in {...}] on strings *)
Definition str_in (x : string) (l : list string) : bool :=
  existsb (String.eqb x) l.

(** Truth value of a [str]: non-empty. *)
Definition truthy (s : string) : bool :=
  match s with EmptyString => false | String _ _ => true end.

(** [s.split(sep)] for a one-character separator. *)
Fixpoint split_on (sep : ascii → bool) (s : string) : list string :=
  match s with
  | EmptyString => [""]
  | String c s' =>
      if sep c then "" :: split_on sep s'
      else match split_on sep s' with
           | h :: t => String c h :: t
           | [] => [String c ""]
           end
  end.

(** [needle in hay] *)
Fixpoint contains (needle hay : string) : bool :=
  String.prefix needle hay
  || match hay with
     | EmptyString => false
     | String _ hay' => contains needle hay'
     end.

(** [s.rstrip()] *)
Fixpoint rstrip (s : string) : string :=
  match s with
  | EmptyString => ""
  | String c s' =>
      match rstrip s' with
      | EmptyString => if is_space c then "" else String c ""
      | r => String c r
      end
  end.

Definition all_chars (p : ascii → bool) (s : string) : bool :=
  forallb p (list_ascii_of_string s).

(** ** Paths *)

Record Path := MkPath { anchored : bool; parts : list string }.

Definition is_part (s : string) : bool :=
  negb (String.eqb s "" || String.eqb s ".").

(** [Path(s)]: the text is cut at the slashes, empty parts and single dots
    are dropped, a leading slash anchors the path (the root [//] that POSIX
    keeps apart is read as [/]). *)
Definition path_of_string (s : string) : Path :=
  MkPath (String.prefix "/" s) (List.filter is_part (split_on is_slash s)).

(** [a / b] *)
Definition path_join (a b : Path) : Path :=
  if anchored b then b else MkPath (anchored a) (parts a ++ parts b).

(** [Path()] *)
Definition path_empty : Path := MkPath false [].

(** [Path] of several segments, joined from left to right *)
Definition path_of_segments (segments : list string) : Path :=
  foldl path_join path_empty (path_of_string <$> segments).

(** [str(p)] *)
Definition path_str (p : Path) : string :=
  match anchored p, parts p with
  | false, [] => "."
  | false, ps => String.concat "/" ps
  | true, ps => "/" +:+ String.concat "/" ps
  end.

(** [p.name] *)
Definition path_name (p : Path) : string := List.last (parts p) "".

(** [p.parent] *)
Definition path_parent (p : Path) : Path :=
  MkPath (anchored p) (removelast (parts p)).

(** The text from the last dot of [s] on, when [s] has a dot. *)
Fixpoint from_last_dot (s : string) : option string :=
  match s with
  | EmptyString => None
  | String c s' =>
      match from_last_dot s' with
      | Some t => Some t
      | None => if is_dot c then Some s else None
      end
  end.

(** [p.suffix]: with [i] the index of the last dot of the name, the
    name from [i] on when [0 < i < len(name) - 1], the empty text
    otherwise. *)
Definition suffix_of_name (name : string) : string :=
  match name with
  | EmptyString => ""
  | String _ rest =>
      match from_last_dot rest with
      | Some t => if (1 <? String.length t)%nat then t else ""
      | None => ""
      end
  end.

Definition path_suffix (p : Path) : string := suffix_of_name (path_name p).

(** [p.relative_to(other)]: [None] stands for the [ValueError]. *)
Definition relative_to (p other : Path) : option Path :=
  if Bool.eqb (anchored p) (anchored other)
     && bool_decide (parts other `prefix_of` parts p)
  then Some (MkPath false (drop (length (parts other)) (parts p)))
  else None.

(** ** Components *)

Record Component := MkComponent {
  name : string;
  package : string;
  file_path : Path;
  type : string
}.

Definition qualified_name (self : Component) : string :=
  if truthy (package self) then package self +:+ "." +:+ name self
  else name self.

Definition test_class_name (self : Component) : string :=
  name self +:+ "Test".

Definition test_path (self : Component) : Path :=
  let package_dir :=
    if truthy (package self)
    then path_of_segments (split_on is_dot (package self))
    else path_empty in
  path_join (path_join (path_of_string "app/src/test/java") package_dir)
            (path_of_string (test_class_name self +:+ ".java")).

(** ** The process state and the monad of effects *)

Inductive node := File (content : string) | Dir.

Record world := World {
  cwd : list string;                  (* parts of the current directory *)
  nodes : gmap (list string) node;    (* the file tree, by absolute parts *)
  out : list string                   (* lines printed so far *)
}.

Inductive exn :=
| ValueError
| FileNotFoundError
| FileExistsError
| NotADirectoryError
| IsADirectoryError.

Inductive outcome (A : Type) :=
| Return (a : A)
| Raise (e : exn).
Arguments Return {A} a.
Arguments Raise {A} e.

Definition io (A : Type) : Type := world → outcome A * world.

#[global] Instance io_ret : MRet io := λ A a w, (Return a, w).
#[global] Instance io_bind : MBind io := λ A B f m w,
  match m w with
  | (Return a, w') => f a w'
  | (Raise e, w') => (Raise e, w')
  end.

Definition raise {A} (e : exn) : io A := λ w, (Raise e, w).
Definition get_world : io world := λ w, (Return w, w).
Definition put_nodes (ns : gmap (list string) node) : io unit :=
  λ w, (Return (), World (cwd w) ns (out w)).

(** [print(line)] *)
Definition print (line : string) : io unit :=
  λ w, (Return (), World (cwd w) (nodes w) (out w ++ [line])).

(** The absolute parts a path denotes in the current directory. *)
Definition locate (w : world) (p : Path) : list string :=
  if anchored p then parts p else cwd w ++ parts p.

(** The root directory always exists. *)
Definition node_at (w : world) (key : list string) : option node :=
  match key with
  | [] => Some Dir
  | _ => nodes w !! key
  end.

(** [Path.cwd()] *)
Definition path_cwd : io Path := λ w, (Return (MkPath true (cwd w)), w).

(** [p.exists()] *)
Definition path_exists (p : Path) : io bool :=
  w ← get_world; mret (bool_decide (is_Some (node_at w (locate w p)))).

(** [p.is_file()] *)
Definition is_file (p : Path) : io bool :=
  w ← get_world;
  mret (match node_at w (locate w p) with Some (File _) => true | _ => false end).

(** [p.read_text()] *)
Definition read_text (p : Path) : io string :=
  w ← get_world;
  match node_at w (locate w p) with
  | Some (File content) => mret content
  | Some Dir => raise IsADirectoryError
  | None => raise FileNotFoundError
  end.

(** [p.write_text(content)]: an existing file is replaced; a new file needs
    its parent directory. *)
Definition write_text (p : Path) (content : string) : io unit :=
  w ← get_world;
  let key := locate w p in
  match node_at w key with
  | Some Dir => raise IsADirectoryError
  | Some (File _) => put_nodes (<[key := File content]> (nodes w))
  | None =>
      match node_at w (removelast key) with
      | Some Dir => put_nodes (<[key := File content]> (nodes w))
      | Some (File _) => raise NotADirectoryError
      | None => raise FileNotFoundError
      end
  end.

(** [p.mkdir(parents=True, exist_ok=True)], on the reversed absolute parts
    of [p]: an existing directory is accepted, a missing parent is created
    first. *)
Fixpoint mkdir_parents (rkey : list string) : io unit :=
  w ← get_world;
  match node_at w (rev rkey) with
  | Some Dir => mret ()
  | Some (File _) => raise FileExistsError
  | None =>
      match rkey with
      | [] => mret ()
      | _ :: rparent =>
          match node_at w (rev rparent) with
          | Some Dir => put_nodes (<[rev rkey := Dir]> (nodes w))
          | Some (File _) => raise NotADirectoryError
          | None =>
              mkdir_parents rparent;;
              w' ← get_world;
              put_nodes (<[rev rkey := Dir]> (nodes w'))
          end
      end
  end.

Definition ensure_directory (path : Path) : io unit :=
  w ← get_world;
  mkdir_parents (rev (locate w (path_parent path))).

(** ** Classification *)

(** The loop of [parse_component_file] over the patterns. *)
Fixpoint collect_components (patterns : list (string * regex))
    (text package : string) (path : Path) (components : list Component)
    : list Component :=
  match patterns with
  | [] => components
  | (component_type, pattern) :: patterns' =>
      match search pattern text with
      | None => collect_components patterns' text package path components
      | Some m =>
          collect_components patterns' text package path
            (components
               ++ [MkComponent (group m 1) package path component_type])
      end
  end.

Definition extract_package (text : string) : string :=
  match search PACKAGE_PATTERN text with
  | Some package_match => group package_match 1
  | None => ""
  end.

(** What [parse_component_file] does with the text of the file. *)
Definition classify (text : string) (path : Path) : list Component :=
  collect_components COMPONENT_PATTERNS text (extract_package text) path [].

Definition parse_component_file (path : Path) : io (list Component) :=
  unusable ←
    (if negb (str_in (path_suffix path) SUPPORTED_EXTENSIONS) then mret true
     else isf ← is_file path; mret (negb isf));
  if (unusable : bool)
  then
    print ("Skipping unsupported or missing file: " +:+ path_str path);;
    mret []
  else
    text ← read_text path;
    mret (classify text path).

(** ** Scaffold generation *)

(** The order in which the interpreter enumerates [set(l)].  It depends on
    the hash seed of the process; all that is known of it is that every
    element of [l] comes exactly once. *)
Record set_order := SetOrder {
  enumerate :> list string → list string;
  enumerate_NoDup : ∀ l, NoDup (enumerate l);
  enumerate_elem : ∀ l x, x ∈ enumerate l ↔ x ∈ l
}.

(** [sorted(l)] on strings: the order of the code points. *)
Definition sorted (l : list string) : list string := merge_sort String.le l.

Definition BASE_IMPORTS : list string :=
  [ "org.junit.Test";
    "org.junit.runner.RunWith";
    "org.junit.Assert";
    "org.mockito.Mock";
    "org.mockito.Mockito";
    "org.mockito.junit.MockitoJUnitRunner" ].

Definition CONTEXT_IMPORTS : list string :=
  [ "android.content.Context";
    "android.content.Intent";
    "android.util.Log" ].

Definition VIEWMODEL_IMPORTS : list string :=
  [ "androidx.lifecycle.ViewModel";
    "androidx.lifecycle.SavedStateHandle" ].

Definition LIFECYCLE_TYPES : list string :=
  ["Activity"; "Service"; "BroadcastReceiver"].

(** The list [imports] of [generate_imports] just before it is turned
    into a set. *)
Definition collected_imports (component : Component) : list string :=
  let imports := BASE_IMPORTS in
  let imports :=
    if str_in (type component) LIFECYCLE_TYPES
    then imports ++ CONTEXT_IMPORTS else imports in
  let imports :=
    if String.eqb (type component) "BroadcastReceiver"
    then imports ++ ["android.content.BroadcastReceiver"] else imports in
  let imports :=
    if String.eqb (type component) "Activity"
    then imports ++ ["android.app.Activity"] else imports in
  let imports :=
    if String.eqb (type component) "Service"
    then imports ++ ["android.app.Service"] else imports in
  let imports :=
    if String.eqb (type component) "ViewModel"
    then imports ++ VIEWMODEL_IMPORTS else imports in
  imports ++ [qualified_name component].

Definition generate_imports (set : set_order) (component : Component)
    : list string :=
  sorted (set (collected_imports component)).

Definition generate_valid_invalid_tests (component : Component) : string :=
  let valid_test :=
    nl +:+ "    @Test" +:+ nl
    +:+ "    public void resolvesClassByName() throws Exception {" +:+ nl
    +:+ "        Class<?> clazz = Class.forName(" +:+ dq
    +:+ qualified_name component +:+ dq +:+ ");" +:+ nl
    +:+ "        Assert.assertNotNull(clazz);" +:+ nl
    +:+ "    }" +:+ nl
    +:+ "    " in
  let invalid_test :=
    nl +:+ "    @Test(expected = ClassNotFoundException.class)" +:+ nl
    +:+ "    public void invalidClassNameThrows() throws Exception {" +:+ nl
    +:+ "        Class.forName(" +:+ dq
    +:+ qualified_name component +:+ "_Missing" +:+ dq +:+ ");" +:+ nl
    +:+ "    }" +:+ nl
    +:+ "    " in
  valid_test +:+ nl +:+ invalid_test.

Definition generate_mockito_test (component : Component) : string :=
  let target_name := name component in
  let base_mock :=
    target_name +:+ " instance = Mockito.mock(" +:+ target_name
    +:+ ".class, Mockito.withSettings().lenient());" in
  let context_setup :=
    if str_in (type component) LIFECYCLE_TYPES
    then "Mockito.when(context.getApplicationContext()).thenReturn(context);"
    else "" in
  let collaborator :=
    if String.eqb (type component) "ViewModel"
    then "SavedStateHandle handle = new SavedStateHandle();"
    else "Intent intent = Mockito.mock(Intent.class);" in
  nl +:+ "    @Test" +:+ nl
  +:+ "    public void canCreateLenientMockitoDouble() {" +:+ nl
  +:+ "        " +:+ base_mock +:+ nl
  +:+ "        " +:+ context_setup +:+ nl
  +:+ "        " +:+ collaborator +:+ nl
  +:+ "        Assert.assertNotNull(instance);" +:+ nl
  +:+ "    }" +:+ nl
  +:+ "    ".

Definition test_body (component : Component) : string :=
  let tests :=
    [generate_valid_invalid_tests component; generate_mockito_test component] in
  String.concat nl tests.

Definition test_class (set : set_order) (component : Component) : string :=
  let imports :=
    String.concat nl
      ((λ item, "import " +:+ item +:+ ";") <$> generate_imports set component) in
  let body := test_body component in
  let package_line :=
    if truthy (package component)
    then "package " +:+ package component +:+ ";" else "" in
  let mocks := nl +:+ "    @Mock Context context;" +:+ nl +:+ "    " in
  let mocks :=
    if String.eqb (type component) "BroadcastReceiver"
    then mocks +:+ "    @Mock Intent intent;" +:+ nl
    else if String.eqb (type component) "Activity"
    then mocks +:+ "    @Mock Intent intent;" +:+ nl
    else if String.eqb (type component) "Service"
    then mocks +:+ "    @Mock Intent intent;" +:+ nl
    else if String.eqb (type component) "ViewModel"
    then "    @Mock SavedStateHandle savedStateHandle;" +:+ nl
    else mocks in
  nl +:+ package_line +:+ nl
  +:+ nl
  +:+ imports +:+ nl
  +:+ nl
  +:+ "@RunWith(MockitoJUnitRunner.class)" +:+ nl
  +:+ "public class " +:+ test_class_name component +:+ " {" +:+ nl
  +:+ mocks +:+ nl
  +:+ body +:+ nl
  +:+ "}" +:+ nl.

(** ** Writing the scaffolds *)

(** The loop of [write_tests]; [written] is the list built so far. *)
Fixpoint write_loop (set : set_order) (force : bool)
    (components : list Component) (written : list Path) : io (list Path) :=
  match components with
  | [] => mret written
  | component :: components' =>
      let destination := test_path component in
      ensure_directory destination;;
      let content := test_class set component in
      present ← path_exists destination;
      if (present : bool) && negb force
      then
        print ("Skipping " +:+ path_str destination
               +:+ " (already exists). Use --force to overwrite.");;
        write_loop set force components' written
      else
        write_text destination content;;
        let written := written ++ [destination] in
        here ← path_cwd;
        match relative_to destination here with
        | None => raise ValueError
        | Some shown =>
            print ("Created " +:+ path_str shown);;
            write_loop set force components' written
        end
  end.

Definition write_tests (set : set_order) (components : list Component)
    (force : bool) : io (list Path) :=
  write_loop set force components [].

(** ** The build file *)

Definition JACOCO_SNIPPET : string :=
  nl +:+ "// Added by android_component_test_generator.py" +:+ nl
  +:+ "plugins { id 'jacoco' }" +:+ nl
  +:+ nl
  +:+ "jacoco {" +:+ nl
  +:+ "    toolVersion = " +:+ dq +:+ "0.8.10" +:+ dq +:+ nl
  +:+ "}" +:+ nl
  +:+ nl
  +:+ "tasks.withType(Test) {" +:+ nl
  +:+ "    finalizedBy jacocoTestReport" +:+ nl
  +:+ "}" +:+ nl
  +:+ nl
  +:+ "jacocoTestReport {" +:+ nl
  +:+ "    dependsOn test" +:+ nl
  +:+ "    reports {" +:+ nl
  +:+ "        xml.required = true" +:+ nl
  +:+ "        csv.required = false" +:+ nl
  +:+ "        html.required = true" +:+ nl
  +:+ "    }" +:+ nl
  +:+ "}" +:+ nl.

Definition ensure_jacoco (build_gradle : Path) : io unit :=
  present ← path_exists build_gradle;
  if negb present
  then
    print ("Gradle file " +:+ path_str build_gradle
           +:+ " not found; skipping JaCoCo integration.")
  else
    content ← read_text build_gradle;
    if contains "jacocoTestReport" content && contains "jacoco" content
    then print "JaCoCo configuration already detected."
    else
      let updated := rstrip content +:+ nl +:+ nl +:+ JACOCO_SNIPPET in
      write_text build_gradle updated;;
      print ("Appended JaCoCo configuration to " +:+ path_str build_gradle).

(** Two enumeration orders: first occurrences in the order of the list,
    and the same backwards. *)
Definition insertion_order : set_order :=
  SetOrder remove_dups NoDup_remove_dups (λ l x, elem_of_remove_dups l x).

Definition reversed_order : set_order :=
  SetOrder (λ l, reverse (remove_dups l))
    (λ l, ltac:(rewrite reverse_Permutation; apply NoDup_remove_dups))
    (λ l x, ltac:(rewrite elem_of_reverse; apply elem_of_remove_dups)).

(** ** Scanning a source directory *)

Definition is_dir_at (w : world) (key : list string) : bool :=
  match node_at w key with Some Dir => true | _ => false end.

Definition is_file_at (w : world) (key : list string) : bool :=
  match node_at w key with Some (File _) => true | _ => false end.

(** The entry [base ++ rel] is found by walking down from the directory
    [base]: it is there, and [base] and every entry on the way to it are
    directories. *)
Definition reachable (w : world) (base rel : list string) : bool :=
  bool_decide (rel ≠ [])
  && bool_decide (is_Some (node_at w (base ++ rel)))
  && forallb (λ j, is_dir_at w (base ++ take j rel)) (List.seq 0 (length rel)).

(** The entries below [base], as parts relative to it. *)
Definition entries_below (w : world) (base : list string)
    : list (list string) :=
  omap (λ key,
          if bool_decide (base `prefix_of` key)
          then let rel := drop (length base) key in
               if reachable w base rel then Some rel else None
          else None)
       (map_to_list (nodes w)).*1.

(** The order in which a directory tree is listed is left to the system:
    any arrangement of the entries. *)
Record walk_order := WalkOrder {
  arrange :> list (list string) → list (list string);
  arrange_perm : ∀ l, arrange l ≡ₚ l
}.

(** [p.rglob("*")]: every entry below [p], as [p] joined with its parts. *)
Definition rglob (walk : walk_order) (p : Path) : io (list Path) :=
  w ← get_world;
  mret ((λ rel, path_join p (MkPath false rel))
          <$> walk (entries_below w (locate w p))).

(** The loop of [discover_components]. *)
Fixpoint scan_loop (paths : list Path) (components : list Component)
    : io (list Component) :=
  match paths with
  | [] => mret components
  | path :: paths' =>
      found ← parse_component_file path;
      scan_loop paths' (components ++ found)
  end.

Definition discover_components (walk : walk_order) (root source_root : Path)
    : io (list Component) :=
  let source_root :=
    if negb (anchored source_root) then path_join root source_root
    else source_root in
  present ← path_exists source_root;
  if negb present
  then
    print ("No source directory found at " +:+ path_str source_root
           +:+ ". Nothing to scan.");;
    mret []
  else
    paths ← rglob walk source_root;
    scan_loop paths [].

(** The path can be read as a source file. *)
Definition readable (w : world) (path : Path) : bool :=
  str_in (path_suffix path) SUPPORTED_EXTENSIONS
  && is_file_at w (locate w path).

(** The units and the line that the scan gets from one path. *)
Definition units_at (w : world) (path : Path) : list Component :=
  if str_in (path_suffix path) SUPPORTED_EXTENSIONS
  then match node_at w (locate w path) with
       | Some (File text) => classify text path
       | _ => []
       end
  else [].

Definition skip_line (w : world) (path : Path) : list string :=
  if readable w path then []
  else ["Skipping unsupported or missing file: " +:+ path_str path].

(** The directory that [discover_components] scans. *)
Definition scanned_root (root source_root : Path) : Path :=
  if negb (anchored source_root) then path_join root source_root
  else source_root.

(** The paths that the walk hands to the loop. *)
Definition scanned_paths (walk : walk_order) (w : world) (dir : Path)
    : list Path :=
  (λ rel, path_join dir (MkPath false rel))
    <$> walk (entries_below w (locate w dir)).

Definition NOTHING_TO_SCAN (dir : Path) : string :=
  "No source directory found at " +:+ path_str dir +:+ ". Nothing to scan.".

(** ** The command line *)

(** The parsed arguments of [main]. *)
Module Args.
Record t := Make {
  project_root : Path;
  source_root : Path;
  force : bool;
  jacoco : bool;
  coverage_report : option Path;
  source_file : option Path
}.
End Args.

(** [main] after the arguments are parsed.  The report of the coverage,
    which reads an XML file, is the action [summarize_coverage]. *)
Definition main (set : set_order) (walk : walk_order)
    (summarize_coverage : Path → io unit) (args : Args.t) : io unit :=
  let root := Args.project_root args in
  match Args.source_file args with
  | Some source_file =>
      let target_file :=
        if anchored source_file then source_file
        else path_join root source_file in
      components ← parse_component_file target_file;
      match components with
      | _ :: _ =>
          print ("Discovered " +:+ pretty (length components)
                 +:+ " component(s) in " +:+ path_str target_file);;
          write_tests set components (Args.force args);;
          mret ()
      | [] =>
          print ("No supported components found in "
                 +:+ path_str target_file +:+ ".")
      end
  | None =>
      components ← discover_components walk root (Args.source_root args);
      match components with
      | _ :: _ =>
          print ("Discovered " +:+ pretty (length components)
                 +:+ " Android components");;
          write_tests set components (Args.force args);;
          mret ()
      | [] => print "No Android components detected."
      end
  end;;
  (if Args.jacoco args
   then ensure_jacoco
          (path_join (path_join root (path_of_string "app"))
             (path_of_string "build.gradle"))
   else mret ());;
  match Args.coverage_report args with
  | Some report => summarize_coverage report
  | None => mret ()
  end.

(** The file that [main] classifies when it is given one. *)
Definition target_of (root source_file : Path) : Path :=
  if anchored source_file then source_file else path_join root source_file.

(** The order that lists the entries as the tree stores them. *)
Definition stored_order : walk_order := WalkOrder (λ l, l) (λ l, reflexivity _).

(** ** The match that starts at a given offset *)

(** The character before offset [i] of a text and the text from [i] on;
    [prev] is the character before the text itself. *)
Fixpoint at_offset (prev : option ascii) (text : string) (i : nat)
    : option (option ascii * string) :=
  match i with
  | 0 => Some (prev, text)
  | S i' =>
      match text with
      | String c text' => at_offset (Some c) text' i'
      | EmptyString => None
      end
  end.

Definition match_from (r : regex) (prev : option ascii) (text : string)
    (pos i : nat) : option match_obj :=
  match at_offset prev text i with
  | Some (prev', rest) => match_here r prev' rest (pos + i)
  | None => None
  end.


(** The fragments of a pattern table, pattern by pattern. *)
Definition fragment (text package : string) (path : Path)
    (entry : string * regex) : list Component :=
  match search entry.2 text with
  | Some m => [MkComponent (group m 1) package path entry.1]
  | None => []
  end.


(** ** A small project, for the examples *)

Definition login_source : string :=
  "package com.app; class LoginActivity extends Activity {}".

Definition login_path : Path :=
  path_of_string "app/src/main/java/com/app/LoginActivity.java".

Definition notes_path : Path := path_of_string "app/src/main/java/Notes.java".

Definition gradle_path : Path := path_of_string "app/build.gradle".

Definition login_activity : Component :=
  MkComponent "LoginActivity" "com.app" login_path "Activity".

Definition project_dir : list string := ["home"; "dev"; "project"].

Definition under_project (rel : string) : list string :=
  project_dir ++ split_on is_slash rel.

Definition demo_nodes : gmap (list string) node :=
  list_to_map
    [ (["home"], Dir);
      (["home"; "dev"], Dir);
      (project_dir, Dir);
      (under_project "app", Dir);
      (under_project "app/build.gradle", File ("apply plugin: 'x' " +:+ nl));
      (under_project "app/src", Dir);
      (under_project "app/src/main", Dir);
      (under_project "app/src/main/java", Dir);
      (under_project "app/src/main/java/Notes.java", File "// nothing here");
      (under_project "app/src/main/java/com", Dir);
      (under_project "app/src/main/java/com/app", Dir);
      (under_project "app/src/main/java/com/app/LoginActivity.java",
       File login_source) ].

Definition demo_world : world := World project_dir demo_nodes [].

(** The same project with a build file that only mentions the report task
    in a comment. *)
Definition commented_world : world :=
  World project_dir
    (<[under_project "app/build.gradle" := File "// TODO jacocoTestReport"]>
       demo_nodes) [].

(** A call of [main] on the single file [Notes.java], with [--jacoco], and
    one on [LoginActivity.java]. *)
Definition notes_args : Args.t :=
  Args.Make (MkPath true project_dir) (path_of_string "app/src/main/java")
    false true None (Some notes_path).

Definition login_args : Args.t :=
  Args.Make (MkPath true project_dir) (path_of_string "app/src/main/java")
    false true None (Some login_path).

Definition no_report : Path → io unit := λ _, mret ().

(** ** Vocabulary of the statements *)

(** Characters allowed in a package or a name that stays inside the test
    directory. *)
Definition no_slash (c : ascii) : bool := negb (is_slash c).
Definition no_slash_no_dot (c : ascii) : bool :=
  negb (is_slash c) && negb (is_dot c).

(** The carriage return, which a read in text mode turns into a line feed:
    a text without it is read as it is stored. *)
Definition is_cr (c : ascii) : bool := (code c =? 13)%N.
Definition no_cr (c : ascii) : bool := negb (is_cr c).

Fixpoint last_char (s : string) : option ascii :=
  match s with
  | EmptyString => None
  | String c EmptyString => Some c
  | String _ s' => last_char s'
  end.

Definition ends_in_space (s : string) : bool :=
  match last_char s with
  | Some c => is_space c
  | None => false
  end.

(** The lines printed by [ensure_jacoco] and [write_tests]. *)
Definition NOT_FOUND (build_gradle : Path) : string :=
  "Gradle file " +:+ path_str build_gradle
  +:+ " not found; skipping JaCoCo integration.".

Definition ALREADY : string := "JaCoCo configuration already detected.".

Definition APPENDED (build_gradle : Path) : string :=
  "Appended JaCoCo configuration to " +:+ path_str build_gradle.

Definition SKIPPED (destination : Path) : string :=
  "Skipping " +:+ path_str destination
  +:+ " (already exists). Use --force to overwrite.".

(** A unit found in a Kotlin file. *)
Definition kotlin_unit : Component :=
  MkComponent "Main" "com.app"
    (path_of_string "app/src/main/java/com/app/Main.kt") "Activity".

(** The project after one run of [ensure_jacoco]. *)
Definition configured_world : world :=
  (ensure_jacoco gradle_path demo_world).2.

(** [r] closes no group 1. *)
Fixpoint keeps_group1 (r : regex) : bool :=
  match r with
  | Alt r1 r2 | Seq r1 r2 => keeps_group1 r1 && keeps_group1 r2
  | Group n r' => negb (Nat.eqb n 1) && keeps_group1 r'
  | _ => true
  end.

(** The class [q] when every match of [r] goes through a group 1 of the
    form [(q+)] that nothing after it replaces. *)
Fixpoint captured_class (r : regex) : option (ascii → bool) :=
  match r with
  | Group 1 (Plus q) => Some q
  | Seq r1 r2 =>
      match captured_class r2 with
      | Some q => Some q
      | None => if keeps_group1 r2 then captured_class r1 else None
      end
  | _ => None
  end.

(** The files of [w'] are those of [w], with the same contents. *)
Definition same_files (w w' : world) : Prop :=
  ∀ key content,
    node_at w' key = Some (File content) ↔ node_at w key = Some (File content).

(** The build file that [main] augments. *)
Definition gradle_of (root : Path) : Path :=
  path_join (path_join root (path_of_string "app"))
    (path_of_string "build.gradle").

(** The project after a first run of [write_tests] on [login_activity]. *)
Definition scaffolded_world : world :=
  (write_tests insertion_order [login_activity] false demo_world).2.

(** * Properties *)

(** ** Texts *)

Lemma app_cons (c : ascii) (s t : string) :
  String c s +:+ t = String c (s +:+ t).
Proof. reflexivity. Qed.

Lemma app_empty (t : string) : "" +:+ t = t.
Proof. reflexivity. Qed.

Lemma all_chars_cons p c s :
  all_chars p (String c s) = p c && all_chars p s.
Proof. reflexivity. Qed.

Lemma all_chars_app p s t :
  all_chars p (s +:+ t) = all_chars p s && all_chars p t.
Proof.
  induction s as [|c s IH]; [done|].
  rewrite app_cons, !all_chars_cons, IH. by rewrite andb_assoc.
Qed.

(** ** The matcher *)

Section matcher_facts.
Context {R : Type}.
Implicit Types (k : cursor → option R) (x : R).

Lemma or_else_Some {A} (a b : option A) (x : A) :
  or_else a b = Some x → a = Some x ∨ (a = None ∧ b = Some x).
Proof. destruct a; simpl; auto. Qed.

(** A greedy star consumes a text of its class and leaves the groups. *)
Lemma star_greedy_run p gs k prev rest pos x :
  star_greedy p gs k prev rest pos = Some x →
  ∃ s prev' rest',
    k (Cursor prev' rest' (pos + String.length s) gs) = Some x
    ∧ rest = s +:+ rest' ∧ all_chars p s = true.
Proof.
  revert prev pos. induction rest as [|c rest IH]; intros prev pos; simpl.
  - intros Hk. exists "", prev, "". by rewrite Nat.add_0_r.
  - assert (k (Cursor prev (String c rest) pos gs) = Some x →
            ∃ s prev' rest',
              k (Cursor prev' rest' (pos + String.length s) gs) = Some x
              ∧ String c rest = s +:+ rest' ∧ all_chars p s = true) as Hstop.
    { intros Hk. exists "", prev, (String c rest). by rewrite Nat.add_0_r. }
    destruct (p c) eqn:Hc; [|done].
    intros [H|[_ H]]%or_else_Some; [|by apply Hstop].
    apply IH in H as (s & prev' & rest' & Hk & -> & Hs).
    exists (String c s), prev', rest'. split_and!; [|done|].
    + simpl. by rewrite Nat.add_succ_r.
    + by rewrite all_chars_cons, Hc, Hs.
Qed.

Lemma star_greedy_inv p gs k prev rest pos x :
  star_greedy p gs k prev rest pos = Some x →
  ∃ cu, k cu = Some x ∧ c_groups cu = gs.
Proof. intros (s & prev' & rest' & Hk & _)%star_greedy_run. eauto. Qed.

Lemma star_lazy_inv p gs k prev rest pos x :
  star_lazy p gs k prev rest pos = Some x →
  ∃ cu, k cu = Some x ∧ c_groups cu = gs.
Proof.
  revert prev pos. induction rest as [|c rest IH]; intros prev pos; simpl.
  - intros [H|[_ H]]%or_else_Some; [eauto | done].
  - intros [H|[_ H]]%or_else_Some; [eauto |].
    destruct (p c); [eauto | done].
Qed.
End matcher_facts.

(** A successful run ends in a call of its continuation. *)
Lemma run_inv {R : Type} (r : regex) :
  ∀ (cu : cursor) (k : cursor → option R) (x : R),
    run r cu k = Some x → ∃ cu', k cu' = Some x.
Proof.
  induction r as [s|greedy p|p| | |r1 IH1 r2 IH2|n r IH|r1 IH1 r2 IH2];
    intros cu k x; simpl.
  - destruct (eat_lit _ _ _ _) as [[[prev rest] pos]|]; [eauto | done].
  - destruct greedy;
      [intros (? & ? & _)%star_greedy_inv | intros (? & ? & _)%star_lazy_inv];
      eauto.
  - destruct (c_rest cu) as [|c rest]; [done|].
    destruct (p c); [|done]. intros (? & ? & _)%star_greedy_inv. eauto.
  - destruct (at_word_boundary cu); [eauto | done].
  - destruct (at_line_start cu); [eauto | done].
  - intros [H|[_ H]]%or_else_Some; eauto.
  - intros [cu' H]%IH. eauto.
  - intros [cu' H]%IH1. eauto.
Qed.

Lemma match_here_start r prev rest pos m :
  match_here r prev rest pos = Some m → m_start m = pos.
Proof.
  unfold match_here. intros [cu' H]%run_inv. by simplify_eq.
Qed.

(** [search_from] returns the match at the least offset that has one. *)
Lemma search_from_Some r rest : ∀ prev pos m,
  search_from r prev rest pos = Some m →
  ∃ i, m_start m = pos + i
       ∧ match_from r prev rest pos i = Some m
       ∧ ∀ j, j < i → match_from r prev rest pos j = None.
Proof.
  induction rest as [|c rest IH]; intros prev pos m; simpl.
  - destruct (match_here r prev "" pos) as [m'|] eqn:Hm; [|done].
    intros [= ->]. exists 0. unfold match_from; simpl.
    rewrite Nat.add_0_r. split_and!; [|done|lia].
    apply match_here_start in Hm. lia.
  - destruct (match_here r prev (String c rest) pos) as [m'|] eqn:Hm.
    + intros [= ->]. exists 0. unfold match_from; simpl.
      rewrite Nat.add_0_r. split_and!; [|done|lia].
      apply match_here_start in Hm. lia.
    + intros (i & Hs & Hi & Hlt)%IH. exists (S i).
      unfold match_from in *; simpl.
      replace (pos + S i) with (S pos + i) by lia.
      split_and!; [lia|done|].
      intros [|j] Hj; simpl.
      * by rewrite Nat.add_0_r.
      * replace (pos + S j) with (S pos + j) by lia. apply Hlt. lia.
  Qed.




(** ** Captured groups *)

Lemma substring_prefix (s t : string) :
  substring 0 (String.length s) (s +:+ t) = s.
Proof.
  induction s as [|c s IH].
  - by destruct t.
  - rewrite app_cons. simpl. by rewrite IH.
Qed.

Lemma lookup_group_other n s gs :
  n ≠ 1 → lookup_group 1 ((n, s) :: gs) = lookup_group 1 gs.
Proof.
  intros Hn. unfold lookup_group. simpl.
  by destruct (Nat.eqb_spec n 1).
Qed.

(** A pattern without a group 1 leaves group 1 as it is. *)
Lemma keeps_group1_run {R : Type} (r : regex) :
  ∀ (cu : cursor) (k : cursor → option R) (x : R),
    keeps_group1 r = true → run r cu k = Some x →
    ∃ cu', k cu' = Some x
           ∧ lookup_group 1 (c_groups cu') = lookup_group 1 (c_groups cu).
Proof.
  induction r as [s|greedy p|p| | |r1 IH1 r2 IH2|n r IH|r1 IH1 r2 IH2];
    intros cu k x Hkeep; simpl in *.
  - destruct (eat_lit _ _ _ _) as [[[prev rest] pos]|]; [eauto | done].
  - destruct greedy;
      [intros (cu' & ? & Hg)%star_greedy_inv
      |intros (cu' & ? & Hg)%star_lazy_inv];
      exists cu'; by rewrite Hg.
  - destruct (c_rest cu) as [|c rest]; [done|].
    destruct (p c); [|done]. intros (cu' & ? & Hg)%star_greedy_inv.
    exists cu'. by rewrite Hg.
  - destruct (at_word_boundary cu); [eauto | done].
  - destruct (at_line_start cu); [eauto | done].
  - apply andb_true_iff in Hkeep as [H1 H2].
    intros [H|[_ H]]%or_else_Some; eauto.
  - apply andb_true_iff in Hkeep as [Hn%negb_true_iff%Nat.eqb_neq Hr].
    intros (cu' & Hk & Hg)%IH; [|done].
    eexists. split; [exact Hk|]. simpl. by rewrite lookup_group_other.
  - apply andb_true_iff in Hkeep as [H1 H2].
    intros (cu1 & Hrun & Hg1)%IH1; [|done].
    apply IH2 in Hrun as (cu2 & Hk & Hg2); [|done].
    exists cu2. split; [done|]. by rewrite Hg2.
Qed.

(** A group [(q+)] captures a text of class [q] that is not empty. *)
Lemma group_plus_run {R : Type} (q : ascii → bool) (cu : cursor)
    (k : cursor → option R) (x : R) :
  run (Group 1 (Plus q)) cu k = Some x →
  ∃ cu' s, k cu' = Some x
           ∧ lookup_group 1 (c_groups cu') = Some s
           ∧ s ≠ "" ∧ all_chars q s = true.
Proof.
  simpl. destruct (c_rest cu) as [|c rest] eqn:Hrest; [done|].
  destruct (q c) eqn:Hc; [|done].
  intros (s & prev' & rest' & Hk & -> & Hs)%star_greedy_run.
  cbn [c_prev c_rest c_pos c_groups] in Hk. rewrite ?Hrest in Hk.
  replace (S (c_pos cu) + String.length s - c_pos cu)
    with (String.length (String c s)) in Hk by (simpl; lia).
  rewrite <- app_cons, substring_prefix in Hk.
  eexists _, (String c s). split; [exact Hk|].
  split_and!; [done..|]. by rewrite all_chars_cons, Hc, Hs.
Qed.

Lemma captured_class_run {R : Type} (r : regex) :
  ∀ (q : ascii → bool) (cu : cursor) (k : cursor → option R) (x : R),
    captured_class r = Some q → run r cu k = Some x →
    ∃ cu' s, k cu' = Some x
             ∧ lookup_group 1 (c_groups cu') = Some s
             ∧ s ≠ "" ∧ all_chars q s = true.
Proof.
  induction r as [s|greedy p|p| | |r1 IH1 r2 IH2|n r IH|r1 IH1 r2 IH2];
    intros q cu k x Hcap; try done.
  - destruct n as [|[|n]]; [done| |done].
    destruct r; try done. injection Hcap as <-. apply group_plus_run.
  - cbn [captured_class] in Hcap. cbn [run].
    destruct (captured_class r2) as [q2|] eqn:Hc2.
    + injection Hcap as <-. intros (cu1 & Hrun)%run_inv. by eapply IH2.
    + destruct (keeps_group1 r2) eqn:Hkeep; [|done].
      intros (cu1 & s & Hrun & Hg & Hs)%(IH1 q); [|done].
      apply keeps_group1_run in Hrun as (cu2 & Hk & Hg2); [|done].
      exists cu2, s. by rewrite Hg2.
Qed.

Lemma match_from_here r prev text pos i m :
  match_from r prev text pos i = Some m →
  ∃ prev' rest, match_here r prev' rest (pos + i) = Some m.
Proof.
  unfold match_from. destruct (at_offset prev text i) as [[prev' rest]|];
    [eauto | done].
Qed.

(** In a match found by [search], group 1 has taken part: it holds a text
    of the captured class that is not empty. *)
Lemma search_captures r q text m :
  captured_class r = Some q → search r text = Some m →
  lookup_group 1 (m_groups m) = Some (group m 1)
  ∧ group m 1 ≠ "" ∧ all_chars q (group m 1) = true.
Proof.
  intros Hcap (i & _ & (prev & rest & Hm)%match_from_here & _)%search_from_Some.
  unfold match_here in Hm.
  apply (captured_class_run _ q) in Hm as (cu & s & [= <-] & Hg & Hs);
    [|done].
  unfold group. simpl. by rewrite Hg.
Qed.

Lemma COMPONENT_PATTERNS_capture :
  Forall (λ entry, captured_class entry.2 = Some is_word) COMPONENT_PATTERNS.
Proof. by repeat constructor. Qed.

Lemma PACKAGE_PATTERN_capture :
  captured_class PACKAGE_PATTERN = Some is_word_or_dot.
Proof. reflexivity. Qed.

Lemma extract_package_chars text :
  all_chars is_word_or_dot (extract_package text) = true.
Proof.
  unfold extract_package.
  destruct (search PACKAGE_PATTERN text) as [m|] eqn:Hs; [|done].
  by destruct (search_captures _ _ _ _ PACKAGE_PATTERN_capture Hs) as (_ & _ & ?).
Qed.

(** ** Classification *)

Lemma fragment_Some text pkg path ty pattern m :
  search pattern text = Some m →
  fragment text pkg path (ty, pattern) = [MkComponent (group m 1) pkg path ty].
Proof. unfold fragment; simpl. by intros ->. Qed.

Lemma fragment_None text pkg path ty pattern :
  search pattern text = None → fragment text pkg path (ty, pattern) = [].
Proof. unfold fragment; simpl. by intros ->. Qed.

Lemma collect_components_spec patterns text pkg path : ∀ components,
  collect_components patterns text pkg path components
  = components ++ flat_map (fragment text pkg path) patterns.
Proof.
  induction patterns as [|[ty pattern] patterns IH]; intros components; simpl.
  - by rewrite app_nil_r.
  - destruct (search pattern text) as [m|] eqn:Hs; rewrite IH.
    + rewrite (fragment_Some _ _ _ _ _ _ Hs). by rewrite <- app_assoc.
    + by rewrite (fragment_None _ _ _ _ _ Hs).
Qed.

Lemma classify_spec text path :
  classify text path
  = flat_map (fragment text (extract_package text) path) COMPONENT_PATTERNS.
Proof. unfold classify. by rewrite collect_components_spec. Qed.


Lemma fragment_length text pkg path entry :
  (length (fragment text pkg path entry) ≤ 1)%nat.
Proof. unfold fragment. destruct (search entry.2 text); simpl; lia. Qed.






(** The four entries are visited in the order of the table. *)
Lemma fragments_length text pkg path patterns :
  (length (flat_map (fragment text pkg path) patterns) ≤ length patterns)%nat.
Proof.
  induction patterns as [|entry patterns IH]; simpl; [done|].
  rewrite length_app. pose proof (fragment_length text pkg path entry). lia.
Qed.

Lemma fragments_fields text pkg path patterns :
  Forall (λ c, file_path c = path ∧ package c = pkg)
         (flat_map (fragment text pkg path) patterns).
Proof.
  induction patterns as [|entry patterns IH]; simpl; [constructor|].
  apply Forall_app. split; [|done].
  unfold fragment. destruct (search entry.2 text); by repeat constructor.
Qed.

(** Unfolds the operations of the monad and reduces the binds. *)
Ltac io_simpl :=
  cbv beta iota zeta
      delta [mbind io_bind mret io_ret get_world raise put_nodes print
             path_cwd path_exists is_file read_text];
  cbn [negb andb orb]; cbv beta iota.

(** On a file of a supported extension, [parse_component_file] classifies
    the text of the file and leaves the process state as it is. *)
Lemma parse_component_file_reads path w text :
  str_in (path_suffix path) SUPPORTED_EXTENSIONS = true →
  node_at w (locate w path) = Some (File text) →
  parse_component_file path w = (Return (classify text path), w).
Proof.
  intros Hext Hnode. unfold parse_component_file.
  rewrite Hext. io_simpl. rewrite Hnode. io_simpl. by rewrite Hnode.
Qed.

(** Otherwise it reports the file and returns nothing. *)
Lemma parse_component_file_skips path w :
  str_in (path_suffix path) SUPPORTED_EXTENSIONS = false
  ∨ (∀ text, node_at w (locate w path) ≠ Some (File text)) →
  parse_component_file path w
  = (Return [],
     World (cwd w) (nodes w)
       (out w ++ ["Skipping unsupported or missing file: " +:+ path_str path])).
Proof.
  intros Hskip. unfold parse_component_file.
  destruct (str_in (path_suffix path) SUPPORTED_EXTENSIONS) eqn:Hext;
    io_simpl; [|done].
  destruct Hskip as [?|Hskip]; [done|].
  destruct (node_at w (locate w path)) as [[text|]|] eqn:Hnode;
    [by destruct (Hskip text)|done..].
Qed.

(** The skipped cases are exactly the others. *)
Lemma parse_component_file_cases path w :
  (∃ text, str_in (path_suffix path) SUPPORTED_EXTENSIONS = true
           ∧ node_at w (locate w path) = Some (File text))
  ∨ (str_in (path_suffix path) SUPPORTED_EXTENSIONS = false
     ∨ ∀ text, node_at w (locate w path) ≠ Some (File text)).
Proof.
  destruct (str_in (path_suffix path) SUPPORTED_EXTENSIONS); [|by auto].
  destruct (node_at w (locate w path)) as [[text|]|]; [by eauto|..];
    right; right; done.
Qed.



(** The units of a file have a name made of word characters, not empty,
    and a package made of word characters and dots. *)
Lemma classify_chars text path :
  Forall (λ c, name c ≠ "" ∧ all_chars is_word (name c) = true
               ∧ all_chars is_word_or_dot (package c) = true)
         (classify text path).
Proof.
  rewrite classify_spec. pose proof COMPONENT_PATTERNS_capture as Hcap.
  induction Hcap as [|[ty pattern] patterns Hq _ IH]; simpl; [constructor|].
  apply Forall_app. split; [|done].
  destruct (search pattern text) as [m|] eqn:Hs.
  - rewrite (fragment_Some _ _ _ _ _ _ Hs).
    destruct (search_captures _ _ _ _ Hq Hs) as (_ & ? & ?).
    repeat constructor; simpl; [done..|]. apply extract_package_chars.
  - rewrite (fragment_None _ _ _ _ _ Hs). constructor.
Qed.

(** C10. The components of one call of [parse_component_file] all carry the
    path given to the call and one package, the one extracted from the text
    of the file (the empty one when the package pattern does not occur),
    and they are at most four. *)
Theorem parse_component_file_invariant (path : Path) (w : world) :
  ∃ components w' pkg,
    parse_component_file path w = (Return components, w')
    ∧ Forall (λ c, package c = pkg ∧ file_path c = path) components
    ∧ (length components ≤ 4)%nat
    ∧ (components = []
       ∨ ∃ text, node_at w (locate w path) = Some (File text)
                 ∧ pkg = extract_package text)
    ∧ ∀ text,
        match search PACKAGE_PATTERN text with
        | Some m => extract_package text = group m 1
        | None => extract_package text = ""
        end.
Proof.
  assert (∀ text,
            match search PACKAGE_PATTERN text with
            | Some m => extract_package text = group m 1
            | None => extract_package text = ""
            end) as Hpkg.
  { intros text. unfold extract_package.
    by destruct (search PACKAGE_PATTERN text). }
  destruct (parse_component_file_cases path w)
    as [(text & Hext & Hnode)|Hskip].
  - exists (classify text path), w, (extract_package text).
    split; [by apply parse_component_file_reads|].
    rewrite classify_spec. split_and!; [| |by eauto|done].
    + eapply Forall_impl; [apply fragments_fields|]. by intros c [??].
    + apply (fragments_length _ _ _ COMPONENT_PATTERNS).
  - eexists [], _, "". split; [by apply parse_component_file_skips|].
    split_and!; [constructor|simpl; lia|by left|done].
Qed.

(** ** Names and paths of a component *)

(** C5. The qualified name is the package, a dot and the name when the
    package is not empty, and the name alone when it is. *)
Theorem qualified_name_spec (self : Component) :
  (package self ≠ "" →
   qualified_name self = package self +:+ "." +:+ name self)
  ∧ (package self = "" → qualified_name self = name self).
Proof.
  unfold qualified_name. destruct (package self); simpl; split; done.
Qed.

Lemma qualified_name_spec_witness :
  qualified_name login_activity = "com.app.LoginActivity"
  ∧ qualified_name (MkComponent "Main" "" notes_path "Activity") = "Main".
Proof.
  split.
  - apply (proj1 (qualified_name_spec login_activity)). discriminate.
  - apply (proj2 (qualified_name_spec
                    (MkComponent "Main" "" notes_path "Activity"))).
    reflexivity.
Defined.

(** A text without the separator is one segment. *)
Lemma split_on_none sep s :
  all_chars (λ c, negb (sep c)) s = true → split_on sep s = [s].
Proof.
  induction s as [|c s IH]; [done|].
  rewrite all_chars_cons. intros [Hc Hs]%andb_true_iff. simpl.
  destruct (sep c); [done|]. by rewrite IH.
Qed.

(** The segments between the dots contain no dot, and no slash when the
    text has none. *)
Lemma split_on_dot_segments s :
  all_chars no_slash s = true →
  Forall (λ seg, all_chars no_slash_no_dot seg = true) (split_on is_dot s).
Proof.
  induction s as [|c s IH]; [by repeat constructor|].
  rewrite all_chars_cons. intros [Hc Hs]%andb_true_iff. simpl.
  specialize (IH Hs).
  destruct (is_dot c) eqn:Hdot.
  - by constructor.
  - assert (no_slash_no_dot c = true) as Hcc.
    { unfold no_slash_no_dot. unfold no_slash in Hc. by rewrite Hc, Hdot. }
    destruct (split_on is_dot s) as [|h t].
    + repeat constructor. by rewrite all_chars_cons, Hcc.
    + apply Forall_cons in IH as [Hh Ht]. constructor; [|done].
      by rewrite all_chars_cons, Hh, Hcc.
Qed.

Lemma prefix_slash s :
  all_chars no_slash s = true → String.prefix "/" s = false.
Proof.
  destruct s as [|c s]; [done|].
  rewrite all_chars_cons. intros [Hc _]%andb_true_iff.
  change (String.prefix "/" (String c s))
    with (if ascii_dec "/" c then String.prefix "" s else false).
  destruct (ascii_dec "/" c) as [<-|]; [|done].
  vm_compute in Hc. discriminate.
Qed.

Lemma no_slash_weaken seg :
  all_chars no_slash_no_dot seg = true → all_chars no_slash seg = true.
Proof.
  induction seg as [|c seg IH]; [done|].
  rewrite !all_chars_cons. unfold no_slash_no_dot at 1, no_slash at 1.
  intros [[Hc _]%andb_true_iff Hs]%andb_true_iff.
  by rewrite Hc, IH.
Qed.

(** A segment of a package is one part, or none when it is empty. *)
Lemma path_of_string_segment seg :
  all_chars no_slash_no_dot seg = true →
  path_of_string seg = MkPath false (filter (λ s, s ≠ "") [seg]).
Proof.
  intros Hseg. unfold path_of_string.
  rewrite prefix_slash, split_on_none by by apply no_slash_weaken.
  f_equal. destruct seg as [|c seg]; [done|].
  rewrite all_chars_cons in Hseg.
  apply andb_true_iff in Hseg as [[_ Hc]%andb_true_iff _].
  rewrite filter_cons_True by done. simpl.
  unfold is_part. simpl.
  destruct (Ascii.eqb_spec c "."); [by subst|]. simpl.
  by destruct ((c =? ".")%char).
Qed.

Lemma path_of_segments_go segs : ∀ acc,
  Forall (λ seg, all_chars no_slash_no_dot seg = true) segs →
  foldl path_join acc (path_of_string <$> segs)
  = MkPath (anchored acc) (parts acc ++ filter (λ s, s ≠ "") segs).
Proof.
  induction segs as [|seg segs IH]; intros acc Hsegs; simpl.
  - rewrite app_nil_r. by destruct acc.
  - apply Forall_cons in Hsegs as [Hseg Hsegs].
    rewrite IH by done. rewrite path_of_string_segment by done.
    unfold path_join; simpl. f_equal.
    rewrite <- app_assoc. f_equal.
    by destruct (decide (seg ≠ "")); 
      [rewrite !filter_cons_True|rewrite !filter_cons_False].
Qed.

Lemma from_last_dot_java s : from_last_dot (s +:+ ".java") = Some ".java".
Proof.
  induction s as [|c s IH]; [done|]. rewrite app_cons. simpl. by rewrite IH.
Qed.

Lemma suffix_of_test_file n :
  suffix_of_name ((n +:+ "Test") +:+ ".java") = ".java".
Proof.
  destruct n as [|c n]; [done|].
  rewrite !app_cons. simpl. by rewrite from_last_dot_java.
Qed.

(** The name of a test file is a single part. *)
Lemma path_of_string_test_file n :
  all_chars no_slash n = true →
  path_of_string ((n +:+ "Test") +:+ ".java")
  = MkPath false [(n +:+ "Test") +:+ ".java"].
Proof.
  intros Hn. unfold path_of_string.
  assert (all_chars no_slash ((n +:+ "Test") +:+ ".java") = true) as Hall.
  { by rewrite !all_chars_app, Hn. }
  rewrite prefix_slash, split_on_none by done. f_equal.
  cbn [List.filter].
  assert (is_part ((n +:+ "Test") +:+ ".java") = true) as ->; [|done].
  destruct n as [|c [|c' n]]; [done|..]; rewrite !app_cons; unfold is_part;
    simpl; by destruct ((c =? ".")%char).
Qed.

(** The test path of a unit whose package and name have no slash. *)
Lemma test_path_relative (self : Component) :
  all_chars no_slash (package self) = true →
  all_chars no_slash (name self) = true →
  test_path self
  = MkPath false
      (["app"; "src"; "test"; "java"]
         ++ filter (λ s, s ≠ "") (split_on is_dot (package self))
         ++ [test_class_name self +:+ ".java"]).
Proof.
  intros Hpkg Hname. unfold test_path, test_class_name.
  rewrite path_of_string_test_file by done.
  change (path_of_string "app/src/test/java")
    with (MkPath false ["app"; "src"; "test"; "java"]).
  destruct (package self) as [|c pkg] eqn:Hp; [done|].
  cbn [truthy]. unfold path_of_segments.
  rewrite path_of_segments_go by by apply split_on_dot_segments.
  done.
Qed.

Lemma all_chars_impl (p q : ascii → bool) (s : string) :
  (∀ c, p c = true → q c = true) →
  all_chars p s = true → all_chars q s = true.
Proof.
  intros Hpq. induction s as [|c s IH]; [done|].
  rewrite !all_chars_cons. intros [Hc Hs]%andb_true_iff.
  by rewrite (Hpq c Hc), IH.
Qed.

Lemma word_or_dot_no_slash (c : ascii) :
  is_word_or_dot c = true → no_slash c = true.
Proof. destruct c as [[] [] [] [] [] [] [] []]; by vm_compute. Qed.

Lemma word_no_slash (c : ascii) : is_word c = true → no_slash c = true.
Proof.
  intros Hc. apply word_or_dot_no_slash. unfold is_word_or_dot. by rewrite Hc.
Qed.

(** The test paths of the units of a file are relative. *)
Lemma classify_test_paths text path :
  Forall (λ c, anchored (test_path c) = false) (classify text path).
Proof.
  eapply Forall_impl; [apply classify_chars|].
  intros c (_ & Hname & Hpkg). cbv beta.
  rewrite test_path_relative; [done|..].
  - by apply (all_chars_impl _ _ _ word_or_dot_no_slash).
  - by apply (all_chars_impl _ _ _ word_no_slash).
Qed.

(** C2, as stated, fails: the test file of a unit found in a [.kt] file
    does not have the extension of that file. *)
Lemma test_path_extension_counterexample :
  path_suffix (file_path kotlin_unit) = ".kt"
  ∧ test_path kotlin_unit
    ≠ MkPath false
        (["app"; "src"; "test"; "java"; "com"; "app"]
           ++ [test_class_name kotlin_unit
               +:+ path_suffix (file_path kotlin_unit)])
  ∧ path_suffix (test_path kotlin_unit) ≠ path_suffix (file_path kotlin_unit).
Proof. vm_compute. split_and!; [done|discriminate..]. Qed.

(** C2, amended. For a unit whose package and name contain no slash, the
    test path is the relative path made of the parts of [app/src/test/java],
    the non-empty segments of the package between its dots (none for the
    empty package), and the test class name with the fixed extension
    [.java]. *)
Theorem test_path_spec (self : Component) :
  all_chars no_slash (package self) = true →
  all_chars no_slash (name self) = true →
  test_path self
  = MkPath false
      (["app"; "src"; "test"; "java"]
         ++ filter (λ s, s ≠ "") (split_on is_dot (package self))
         ++ [test_class_name self +:+ ".java"])
  ∧ path_suffix (test_path self) = ".java"
  ∧ (package self = "" →
     parts (test_path self)
     = ["app"; "src"; "test"; "java"; test_class_name self +:+ ".java"]).
Proof.
  intros Hpkg Hname.
  pose proof (test_path_relative self Hpkg Hname) as Hpath.
  split_and!; [done| |].
  - rewrite Hpath. unfold path_suffix, path_name, test_class_name. cbn [parts].
    rewrite !app_assoc, List.last_last. apply suffix_of_test_file.
  - intros Hempty. rewrite Hpath, Hempty. done.
Qed.

Lemma test_path_spec_witness :
  path_str (test_path login_activity)
  = "app/src/test/java/com/app/LoginActivityTest.java"
  ∧ path_suffix (test_path login_activity) = ".java".
Proof.
  destruct (test_path_spec login_activity) as (Hpath & Hsuffix & _);
    [vm_compute; reflexivity..|].
  split; [|exact Hsuffix].
  rewrite Hpath. vm_compute. reflexivity.
Defined.

(** ** Imports and scaffolds *)

Lemma sorted_elem (l : list string) (x : string) : x ∈ sorted l ↔ x ∈ l.
Proof. unfold sorted. by rewrite merge_sort_Permutation. Qed.

Lemma sorted_Sorted (l : list string) : Sorted String.le (sorted l).
Proof. apply (Sorted_merge_sort String.le). Qed.

(** Sorting forgets the order of enumeration. *)
Lemma sorted_enumerate (set1 set2 : set_order) (l : list string) :
  sorted (set1 l) = sorted (set2 l).
Proof.
  apply (Sorted_unique String.le); [apply sorted_Sorted..|].
  unfold sorted. rewrite !merge_sort_Permutation.
  apply NoDup_Permutation; [apply enumerate_NoDup..|].
  intros x. by rewrite !enumerate_elem.
Qed.

Lemma generate_imports_elem (set : set_order) (component : Component) x :
  x ∈ generate_imports set component ↔ x ∈ collected_imports component.
Proof. unfold generate_imports. by rewrite sorted_elem, enumerate_elem. Qed.

Lemma str_in_elem (x : string) (l : list string) :
  str_in x l = true ↔ x ∈ l.
Proof.
  unfold str_in. rewrite existsb_exists. split.
  - intros (y & Hy%list_elem_of_In & ->%String.eqb_eq). done.
  - intros Hx. exists x. split; [by apply list_elem_of_In|].
    apply String.eqb_refl.
Qed.

Lemma elem_of_extended (b : bool) (l more : list string) x :
  x ∈ (if b then l ++ more else l) ↔ x ∈ l ∨ (b = true ∧ x ∈ more).
Proof.
  destruct b; [rewrite elem_of_app|]; split.
  - intros [Hl|Hmore]; [by left|by right].
  - intros [Hl|[_ Hmore]]; [by left|by right].
  - intros Hl. by left.
  - intros [Hl|[Hb _]]; [done|discriminate].
Qed.

(** C9. The list of imports has no element twice and is sorted in the order
    of strings.  Its elements are exactly: the six imports of JUnit and
    Mockito; for the kinds Activity, Service and BroadcastReceiver the
    imports of [Context], [Intent] and [Log]; the class of the kind for
    each of these three kinds; for the kind ViewModel the imports of
    [ViewModel] and [SavedStateHandle]; and the qualified name of the
    unit. *)
Theorem generate_imports_spec (set : set_order) (component : Component) :
  NoDup (generate_imports set component)
  ∧ StronglySorted String.le (generate_imports set component)
  ∧ ∀ x, x ∈ generate_imports set component ↔
      x ∈ [ "org.junit.Test"; "org.junit.runner.RunWith"; "org.junit.Assert";
            "org.mockito.Mock"; "org.mockito.Mockito";
            "org.mockito.junit.MockitoJUnitRunner" ]
      ∨ (type component ∈ ["Activity"; "Service"; "BroadcastReceiver"]
         ∧ x ∈ [ "android.content.Context"; "android.content.Intent";
                 "android.util.Log" ])
      ∨ (type component = "BroadcastReceiver"
         ∧ x = "android.content.BroadcastReceiver")
      ∨ (type component = "Activity" ∧ x = "android.app.Activity")
      ∨ (type component = "Service" ∧ x = "android.app.Service")
      ∨ (type component = "ViewModel"
         ∧ x ∈ [ "androidx.lifecycle.ViewModel";
                 "androidx.lifecycle.SavedStateHandle" ])
      ∨ x = qualified_name component.
Proof.
  split_and!.
  - unfold generate_imports, sorted. rewrite merge_sort_Permutation.
    apply enumerate_NoDup.
  - apply (StronglySorted_merge_sort String.le).
  - intros x. rewrite generate_imports_elem. unfold collected_imports.
    rewrite elem_of_app, !elem_of_extended, str_in_elem, !String.eqb_eq,
      !list_elem_of_singleton.
    unfold BASE_IMPORTS, CONTEXT_IMPORTS, VIEWMODEL_IMPORTS, LIFECYCLE_TYPES.
    tauto.
Qed.

Lemma generate_imports_spec_witness :
  "org.junit.Test" ∈ generate_imports reversed_order login_activity
  ∧ "org.mockito.junit.MockitoJUnitRunner"
    ∈ generate_imports reversed_order login_activity
  ∧ "android.content.Intent" ∈ generate_imports reversed_order login_activity
  ∧ "androidx.lifecycle.SavedStateHandle"
    ∈ generate_imports insertion_order
        (MkComponent "NotesViewModel" "com.app" notes_path "ViewModel")
  ∧ "android.content.Intent"
    ∉ generate_imports insertion_order
        (MkComponent "NotesViewModel" "com.app" notes_path "ViewModel").
Proof.
  pose proof (proj2 (proj2
    (generate_imports_spec reversed_order login_activity))) as Hlogin.
  pose proof (proj2 (proj2
    (generate_imports_spec insertion_order
       (MkComponent "NotesViewModel" "com.app" notes_path "ViewModel"))))
    as Hnotes.
  split_and!.
  - apply Hlogin. left. vm_compute. repeat constructor.
  - apply Hlogin. left. vm_compute. repeat constructor.
  - apply Hlogin. right. left. split; vm_compute; repeat constructor.
  - apply Hnotes. do 5 right. left. split; [reflexivity|].
    vm_compute. repeat constructor.
  - intros Hin%Hnotes. cbn [type qualified_name name package] in Hin.
    rewrite !elem_of_cons, !elem_of_nil in Hin.
    repeat match goal with
           | H : _ ∨ _ |- _ => destruct H
           | H : _ ∧ _ |- _ => destruct H
           | H : False |- _ => destruct H
           end; discriminate.
Defined.

(** C4. The text of a scaffold is a function of the unit alone: whatever the
    orders in which two calls enumerate the set of imports, they return the
    same text.  [test_class] has no access to the process state. *)
Theorem test_class_deterministic (set1 set2 : set_order)
    (component : Component) :
  test_class set1 component = test_class set2 component.
Proof.
  unfold test_class, generate_imports.
  by rewrite (sorted_enumerate set1 set2).
Qed.

(** ** The build file *)

Lemma contains_cons needle c hay :
  contains needle (String c hay)
  = String.prefix needle (String c hay) || contains needle hay.
Proof. reflexivity. Qed.

(** What occurs in a text occurs in the text with something before it. *)
Lemma contains_app_r needle before hay :
  contains needle hay = true → contains needle (before +:+ hay) = true.
Proof.
  intros Hc. induction before as [|c before IH]; [done|].
  rewrite app_cons, contains_cons, IH. apply orb_true_r.
Qed.

Lemma JACOCO_SNIPPET_markers :
  contains "jacocoTestReport" JACOCO_SNIPPET = true
  ∧ contains "jacoco" JACOCO_SNIPPET = true.
Proof. by vm_compute. Qed.

Lemma updated_markers content :
  contains "jacocoTestReport" (rstrip content +:+ nl +:+ nl +:+ JACOCO_SNIPPET)
  && contains "jacoco" (rstrip content +:+ nl +:+ nl +:+ JACOCO_SNIPPET)
  = true.
Proof.
  destruct JACOCO_SNIPPET_markers as [H1 H2].
  by rewrite !contains_app_r.
Qed.

(** [rstrip] removes a run of white space from the end and nothing else. *)
Lemma rstrip_spec s :
  ∃ blank, s = rstrip s +:+ blank ∧ all_chars is_space blank = true.
Proof.
  induction s as [|c s (blank & Hs & Hblank)]; [by exists ""|].
  simpl. destruct (rstrip s) as [|c' r] eqn:Hr.
  - rewrite app_empty in Hs. subst blank.
    destruct (is_space c) eqn:Hc.
    + exists (String c s). by rewrite all_chars_cons, Hc, Hblank.
    + by exists s.
  - exists blank. by rewrite app_cons, <- Hs.
Qed.

Lemma node_at_insert w key n out' :
  key ≠ [] →
  node_at (World (cwd w) (<[key := n]> (nodes w)) out') key = Some n.
Proof.
  intros Hkey. destruct key; [done|]. unfold node_at; simpl.
  apply lookup_insert_eq.
Qed.

Lemma node_at_file_key w key content :
  node_at w key = Some (File content) → key ≠ [].
Proof. by intros H ->. Qed.

(** The four runs of [ensure_jacoco]. *)
Lemma ensure_jacoco_absent build_gradle w :
  node_at w (locate w build_gradle) = None →
  ensure_jacoco build_gradle w
  = (Return (),
     World (cwd w) (nodes w) (out w ++ [NOT_FOUND build_gradle])).
Proof.
  intros Hnode. unfold ensure_jacoco. io_simpl. rewrite Hnode.
  rewrite bool_decide_eq_false_2 by by intros [??]. done.
Qed.

Lemma ensure_jacoco_directory build_gradle w :
  node_at w (locate w build_gradle) = Some Dir →
  ensure_jacoco build_gradle w = (Raise IsADirectoryError, w).
Proof.
  intros Hnode. unfold ensure_jacoco. io_simpl. rewrite Hnode.
  rewrite bool_decide_eq_true_2 by eauto. io_simpl. by rewrite Hnode.
Qed.

Lemma ensure_jacoco_configured build_gradle w content :
  node_at w (locate w build_gradle) = Some (File content) →
  contains "jacocoTestReport" content && contains "jacoco" content = true →
  ensure_jacoco build_gradle w
  = (Return (), World (cwd w) (nodes w) (out w ++ [ALREADY])).
Proof.
  intros Hnode Hmark. unfold ensure_jacoco. io_simpl. rewrite Hnode.
  rewrite bool_decide_eq_true_2 by eauto. io_simpl. rewrite Hnode.
  by rewrite Hmark.
Qed.

Lemma ensure_jacoco_updates build_gradle w content :
  node_at w (locate w build_gradle) = Some (File content) →
  contains "jacocoTestReport" content && contains "jacoco" content = false →
  ensure_jacoco build_gradle w
  = (Return (),
     World (cwd w)
       (<[locate w build_gradle :=
            File (rstrip content +:+ nl +:+ nl +:+ JACOCO_SNIPPET)]> (nodes w))
       (out w ++ [APPENDED build_gradle])).
Proof.
  intros Hnode Hmark. unfold ensure_jacoco. io_simpl. rewrite Hnode.
  rewrite bool_decide_eq_true_2 by eauto. io_simpl. rewrite Hnode.
  rewrite Hmark. unfold write_text. io_simpl. by rewrite Hnode.
Qed.

(** C7. When both marker tokens occur in the text of the build file,
    [ensure_jacoco] leaves the file tree as it is; and for every build file
    a second run changes nothing in the tree left by the first one: on a
    build file that is there it finds the markers and only reports so. *)
Theorem ensure_jacoco_idempotent (build_gradle : Path) (w : world) :
  (∀ content,
     node_at w (locate w build_gradle) = Some (File content) →
     contains "jacocoTestReport" content = true →
     contains "jacoco" content = true →
     nodes (ensure_jacoco build_gradle w).2 = nodes w)
  ∧ (let w1 := (ensure_jacoco build_gradle w).2 in
     nodes (ensure_jacoco build_gradle w1).2 = nodes w1
     ∧ ∀ content,
         node_at w (locate w build_gradle) = Some (File content) →
         ensure_jacoco build_gradle w1
         = (Return (), World (cwd w1) (nodes w1) (out w1 ++ [ALREADY]))).
Proof.
  split.
  - intros content Hnode H1 H2.
    rewrite (ensure_jacoco_configured build_gradle w content); [done..|].
    by rewrite H1, H2.
  - cbv zeta.
    destruct (node_at w (locate w build_gradle)) as [[content|]|] eqn:Hnode.
    + destruct (contains "jacocoTestReport" content
                && contains "jacoco" content) eqn:Hmark.
      * rewrite (ensure_jacoco_configured build_gradle w content) by done.
        cbn [snd].
        assert (ensure_jacoco build_gradle
                  (World (cwd w) (nodes w) (out w ++ [ALREADY]))
                = (Return (),
                   World (cwd w) (nodes w) ((out w ++ [ALREADY]) ++ [ALREADY])))
          as Hsecond
          by exact (ensure_jacoco_configured build_gradle
                      (World (cwd w) (nodes w) (out w ++ [ALREADY]))
                      content Hnode Hmark).
        rewrite Hsecond. split; [done|]. by intros ? [= <-].
      * rewrite (ensure_jacoco_updates build_gradle w content) by done.
        cbn [snd].
        set (w1 := World _ _ _).
        assert (node_at w1 (locate w1 build_gradle)
                = Some (File (rstrip content +:+ nl +:+ nl +:+ JACOCO_SNIPPET)))
          as Hnode1.
        { apply node_at_insert. by eapply node_at_file_key. }
        rewrite (ensure_jacoco_configured _ _ _ Hnode1 (updated_markers _)).
        split; [done|]. by intros ? [= <-].
    + rewrite (ensure_jacoco_directory build_gradle w) by done. cbn [snd].
      rewrite (ensure_jacoco_directory build_gradle w) by done. split; [done|]. by intros ?.
    + rewrite (ensure_jacoco_absent build_gradle w) by done. cbn [snd].
      assert (ensure_jacoco build_gradle
                (World (cwd w) (nodes w) (out w ++ [NOT_FOUND build_gradle]))
              = (Return (),
                 World (cwd w) (nodes w)
                   ((out w ++ [NOT_FOUND build_gradle])
                      ++ [NOT_FOUND build_gradle])))
        as Hsecond
        by exact (ensure_jacoco_absent build_gradle
                    (World (cwd w) (nodes w)
                       (out w ++ [NOT_FOUND build_gradle])) Hnode).
      rewrite Hsecond. split; [done|]. by intros ?.
Qed.

Lemma ensure_jacoco_idempotent_witness :
  nodes (ensure_jacoco gradle_path configured_world).2 = nodes configured_world
  ∧ (ensure_jacoco gradle_path configured_world).1 = Return ()
  ∧ out (ensure_jacoco gradle_path configured_world).2
    = [APPENDED gradle_path; ALREADY].
Proof.
  unfold configured_world. split; [|split].
  - apply (proj1 (ensure_jacoco_idempotent gradle_path
                    (ensure_jacoco gradle_path demo_world).2)
             ("apply plugin: 'x'" +:+ nl +:+ nl +:+ JACOCO_SNIPPET));
      vm_compute; reflexivity.
  - rewrite (proj2 (proj2 (ensure_jacoco_idempotent gradle_path demo_world))
               ("apply plugin: 'x' " +:+ nl)); [reflexivity|].
    vm_compute; reflexivity.
  - rewrite (proj2 (proj2 (ensure_jacoco_idempotent gradle_path demo_world))
               ("apply plugin: 'x' " +:+ nl)); [|vm_compute; reflexivity].
    vm_compute. reflexivity.
Defined.

(** C8, as stated, fails: a build file that ends in a space and a line feed
    is not a prefix of what [ensure_jacoco] writes, and what is written is
    not the old text followed by the separator and the block. *)
Lemma ensure_jacoco_prefix_counterexample :
  let content := "apply plugin: 'x' " +:+ nl in
  let w' := (ensure_jacoco gradle_path demo_world).2 in
  node_at demo_world (locate demo_world gradle_path) = Some (File content)
  ∧ contains "jacocoTestReport" content = false
  ∧ ∃ updated,
      node_at w' (locate w' gradle_path) = Some (File updated)
      ∧ updated ≠ content +:+ nl +:+ nl +:+ JACOCO_SNIPPET
      ∧ String.prefix content updated = false.
Proof.
  cbv zeta. split; [by vm_compute|]. split; [by vm_compute|].
  exists ("apply plugin: 'x'" +:+ nl +:+ nl +:+ JACOCO_SNIPPET).
  split; [by vm_compute|]. split; [|by vm_compute].
  vm_compute. discriminate.
Qed.

Lemma rstrip_ends s : ends_in_space (rstrip s) = false.
Proof.
  induction s as [|c s IH]; [done|].
  simpl rstrip. destruct (rstrip s) as [|c' r].
  - unfold ends_in_space. by destruct (is_space c) eqn:Hc; simpl; rewrite ?Hc.
  - exact IH.
Qed.

(** C8, amended. When [ensure_jacoco] changes the tree, on a build file
    whose text has no carriage return, the run returns and the old text is
    a beginning that does not end in white space, followed by white space
    only; the new text is that beginning followed by two line feeds and the
    fixed block, so the beginning is preserved as a prefix and the white
    space after it is gone; no other entry of the tree changes and the
    current directory stays. *)
Theorem ensure_jacoco_appends (build_gradle : Path) (w w' : world)
    (content : string) :
  node_at w (locate w build_gradle) = Some (File content) →
  all_chars no_cr content = true →
  (ensure_jacoco build_gradle w).2 = w' →
  nodes w' ≠ nodes w →
  ∃ kept blank,
    ensure_jacoco build_gradle w = (Return (), w')
    ∧ content = kept +:+ blank
    ∧ all_chars is_space blank = true
    ∧ ends_in_space kept = false
    ∧ nodes w'
      = <[locate w build_gradle :=
            File (kept +:+ nl +:+ nl +:+ JACOCO_SNIPPET)]> (nodes w)
    ∧ String.prefix kept (kept +:+ nl +:+ nl +:+ JACOCO_SNIPPET) = true
    ∧ cwd w' = cwd w.
Proof.
  intros Hnode _ <- Hchanged.
  destruct (contains "jacocoTestReport" content && contains "jacoco" content)
    eqn:Hmark.
  { destruct Hchanged.
    by rewrite (ensure_jacoco_configured build_gradle w content). }
  destruct (rstrip_spec content) as (blank & Hc & Hb).
  exists (rstrip content), blank.
  rewrite (ensure_jacoco_updates build_gradle w content) by done.
  cbn [snd nodes cwd].
  split_and!; [done|done|done|apply rstrip_ends|done| |done].
  generalize (nl +:+ nl +:+ JACOCO_SNIPPET). generalize (rstrip content).
  intros s t. induction s as [|c s IH]; [by destruct t|].
  rewrite app_cons.
  change (String.prefix (String c s) (String c (s +:+ t)))
    with (if ascii_dec c c then String.prefix s (s +:+ t) else false).
  by destruct (ascii_dec c c).
Qed.

Lemma ensure_jacoco_appends_witness :
  ∃ w', ensure_jacoco gradle_path demo_world = (Return (), w')
        ∧ node_at w' (locate w' gradle_path)
          = Some (File ("apply plugin: 'x'" +:+ nl +:+ nl +:+ JACOCO_SNIPPET)).
Proof.
  set (w' := (ensure_jacoco gradle_path demo_world).2).
  assert (node_at w' (locate w' gradle_path)
          = Some (File ("apply plugin: 'x'" +:+ nl +:+ nl +:+ JACOCO_SNIPPET)))
    as Hnew by (vm_compute; reflexivity).
  assert (locate w' gradle_path = locate demo_world gradle_path) as Hkey
    by (vm_compute; reflexivity).
  destruct (ensure_jacoco_appends gradle_path demo_world w'
              ("apply plugin: 'x' " +:+ nl))
    as (kept & blank & Hrun & _); [vm_compute; reflexivity..|reflexivity| |].
  - intros Hsame. rewrite Hkey in Hnew. unfold node_at in Hnew.
    rewrite Hsame in Hnew. vm_compute in Hnew.
    injection Hnew as Hnew. discriminate Hnew.
  - exists w'. split; [exact Hrun|exact Hnew].
Defined.

(** ** Writing the scaffolds *)

Lemma write_loop_cons set force component components written :
  write_loop set force (component :: components) written
  = (let destination := test_path component in
     ensure_directory destination;;
     let content := test_class set component in
     present ← path_exists destination;
     if (present : bool) && negb force
     then
       print ("Skipping " +:+ path_str destination
              +:+ " (already exists). Use --force to overwrite.");;
       write_loop set force components written
     else
       write_text destination content;;
       let written := written ++ [destination] in
       here ← path_cwd;
       match relative_to destination here with
       | None => raise ValueError
       | Some shown =>
           print ("Created " +:+ path_str shown);;
           write_loop set force components written
       end).
Proof. reflexivity. Qed.

(** A relative path is never shown relative to the current directory, which
    is absolute. *)
Lemma relative_to_cwd (p : Path) (here : list string) :
  anchored p = false → relative_to p (MkPath true here) = None.
Proof. unfold relative_to. by intros ->. Qed.

(** Whenever [write_tests] returns, no unit whose test path is relative has
    been written: the line that reports a written file raises. *)
Lemma write_loop_returns set force components : ∀ written w result w',
  Forall (λ c, anchored (test_path c) = false) components →
  write_loop set force components written w = (Return result, w') →
  result = written.
Proof.
  induction components as [|component components IH];
    intros written w result w' Hrel.
  - by intros [= <- <-].
  - apply Forall_cons in Hrel as [Hc Hrel].
    rewrite write_loop_cons. io_simpl.
    destruct (ensure_directory (test_path component) w) as [[[]|e] w1];
      [|done].
    destruct (bool_decide _ && negb force).
    + intros Hrest. by apply (IH _ _ _ _ Hrel Hrest).
    + destruct (write_text _ _ w1) as [[[]|e] w2]; [|done].
      by rewrite relative_to_cwd.
Qed.

Lemma write_tests_returns_nothing set force components w result w' :
  Forall (λ c, anchored (test_path c) = false) components →
  write_tests set components force w = (Return result, w') →
  result = [].
Proof.
  intros Hrel Hrun. unfold write_tests in Hrun.
  apply (write_loop_returns _ _ _ _ _ _ _ Hrel Hrun).
Qed.

(** So a run over the units of a source file returns the empty list if it
    returns at all. *)
Lemma write_tests_classified set force text path w result w' :
  write_tests set (classify text path) force w = (Return result, w') →
  result = [].
Proof. apply write_tests_returns_nothing, classify_test_paths. Qed.

Lemma mkdir_parents_existing rkey w :
  node_at w (rev rkey) = Some Dir → mkdir_parents rkey w = (Return (), w).
Proof.
  intros Hnode. destruct rkey; simpl in *; io_simpl; [done|].
  by rewrite Hnode.
Qed.

Lemma ensure_directory_existing path w :
  node_at w (locate w (path_parent path)) = Some Dir →
  ensure_directory path w = (Return (), w).
Proof.
  intros Hnode. unfold ensure_directory. io_simpl.
  apply mkdir_parents_existing. by rewrite rev_involutive.
Qed.

(** A unit whose test file is there is skipped when [force] is off: the
    tree stays as it is and the skip is reported. *)
Lemma write_loop_skips set component components written w old :
  node_at w (locate w (test_path component)) = Some (File old) →
  node_at w (locate w (path_parent (test_path component))) = Some Dir →
  write_loop set false (component :: components) written w
  = write_loop set false components written
      (World (cwd w) (nodes w) (out w ++ [SKIPPED (test_path component)])).
Proof.
  intros Hfile Hdir. rewrite write_loop_cons. io_simpl.
  rewrite ensure_directory_existing by done. rewrite Hfile.
  by rewrite bool_decide_eq_true_2 by eauto.
Qed.

(** The part of C6 that holds: with [force] off, a run over units whose
    test files are all there writes nothing, returns an empty list and
    reports one skip for each unit. *)
Lemma write_loop_all_skipped set components : ∀ written w,
  Forall (λ c, (∃ old, node_at w (locate w (test_path c)) = Some (File old))
               ∧ node_at w (locate w (path_parent (test_path c))) = Some Dir)
         components →
  write_loop set false components written w
  = (Return written,
     World (cwd w) (nodes w)
       (out w ++ (SKIPPED ∘ test_path <$> components))).
Proof.
  induction components as [|c components IH]; intros written w Hall.
  - simpl. rewrite app_nil_r. by destruct w.
  - apply Forall_cons in Hall as [[[old Hfile] Hdir] Hall].
    rewrite (write_loop_skips _ _ _ _ _ old) by done.
    rewrite IH by exact Hall. simpl. by rewrite <- app_assoc.
Qed.

(** X4. With [force] off, a run over units whose test files are all there,
    in directories that are there, returns the empty list, leaves the tree
    and the current directory as they are and prints one skip line for each
    unit, in the order of the units. *)
Theorem write_tests_all_skipped set components w :
  Forall (λ c, (∃ old, node_at w (locate w (test_path c)) = Some (File old))
               ∧ node_at w (locate w (path_parent (test_path c))) = Some Dir)
         components →
  write_tests set components false w
  = (Return [],
     World (cwd w) (nodes w)
       (out w ++ (SKIPPED ∘ test_path <$> components))).
Proof. apply write_loop_all_skipped. Qed.

(** C6 fails on the code. The test file of [login_activity] is not in the
    tree; [write_tests] writes it and then raises [ValueError] where it
    reports the file, so that no list is returned; with [force] on, a
    second run overwrites the file and raises in the same way. *)
Theorem write_tests_raises_after_writing :
  let destination := locate demo_world (test_path login_activity) in
  let first := write_tests insertion_order [login_activity] false demo_world in
  let second := write_tests insertion_order [login_activity] true first.2 in
  node_at demo_world destination = None
  ∧ first.1 = Raise ValueError
  ∧ node_at first.2 destination
    = Some (File (test_class insertion_order login_activity))
  ∧ out first.2 = []
  ∧ second.1 = Raise ValueError
  ∧ node_at second.2 destination
    = Some (File (test_class insertion_order login_activity)).
Proof. vm_compute. split_and!; reflexivity. Qed.

(** With [force] off, the second run skips the file written by the first
    and returns the empty list. *)
Example write_tests_second_run :
  let first := write_tests insertion_order [login_activity] false demo_world in
  write_tests insertion_order [login_activity] false first.2
  = (Return [],
     World (cwd first.2) (nodes first.2)
       (out first.2 ++ [SKIPPED (test_path login_activity)])).
Proof.
  cbv zeta. apply write_tests_all_skipped.
  apply Forall_cons. split; [|constructor].
  split; [eexists|]; vm_compute; reflexivity.
Defined.

(** * Further properties *)

(** ** Creating directories *)

Lemma node_at_insert_ne w key key' n out' :
  key ≠ key' →
  node_at (World (cwd w) (<[key := n]> (nodes w)) out') key' = node_at w key'.
Proof.
  intros Hne. destruct key'; [done|]. unfold node_at; simpl.
  by apply lookup_insert_ne.
Qed.

Lemma rev_cons_nonempty {A} (x : A) (l : list A) : rev (x :: l) ≠ [].
Proof. simpl. by destruct (rev l). Qed.

(** [mkdir_parents] either fails and leaves everything as it is, because an
    entry on the way is a file, or makes the key a directory, adding
    directories on the way to it and nothing else. *)
Lemma mkdir_parents_spec rkey : ∀ w,
  (∃ w', mkdir_parents rkey w = (Return (), w')
         ∧ cwd w' = cwd w ∧ out w' = out w
         ∧ node_at w' (rev rkey) = Some Dir
         ∧ ∀ key, node_at w' key = node_at w key
                  ∨ (node_at w key = None ∧ node_at w' key = Some Dir
                     ∧ key `prefix_of` rev rkey))
  ∨ (∃ e key content,
       mkdir_parents rkey w = (Raise e, w)
       ∧ (e = FileExistsError ∨ e = NotADirectoryError)
       ∧ key `prefix_of` rev rkey
       ∧ node_at w key = Some (File content)).
Proof.
  induction rkey as [|x rparent IH]; intros w.
  { left. exists w. simpl. io_simpl. split_and!; auto. }
  assert (rev (x :: rparent) = rev rparent ++ [x]) as Hrev by done.
  assert (rev rparent `prefix_of` rev (x :: rparent)) as Hpre
    by (rewrite Hrev; by apply prefix_app_r).
  cbn [mkdir_parents]. io_simpl.
  destruct (node_at w (rev (x :: rparent))) as [[content|]|] eqn:Hkey.
  - right. exists FileExistsError, (rev (x :: rparent)), content. auto.
  - left. exists w. split_and!; auto.
  - destruct (node_at w (rev rparent)) as [[content|]|] eqn:Hparent.
    + right. exists NotADirectoryError, (rev rparent), content. auto.
    + left. eexists. split; [done|]. cbn [cwd out]. split_and!; [done..| |].
      * apply node_at_insert, rev_cons_nonempty.
      * intros key. destruct (decide (rev (x :: rparent) = key)) as [<-|Hne].
        -- right. split_and!; [done| |done].
           apply node_at_insert, rev_cons_nonempty.
        -- left. by apply node_at_insert_ne.
    + destruct (IH w)
        as [(w1 & -> & Hcwd & Hout & Hdir & Hframe)
           |(e & key & content & -> & He & Hk & Hfile)].
      * left. eexists. split; [done|]. cbn [cwd out]. split_and!; [done..| |].
        -- apply (node_at_insert w1), rev_cons_nonempty.
        -- intros key.
           destruct (decide (rev (x :: rparent) = key)) as [<-|Hne].
           ++ right. split_and!; [done| |done].
              apply (node_at_insert w1), rev_cons_nonempty.
           ++ rewrite (node_at_insert_ne w1) by done.
              destruct (Hframe key) as [?|(? & ? & ?)]; [by left|right].
              split_and!; [done..|]. by etrans.
      * right. exists e, key, content. split_and!; [done..| |done].
        by etrans.
Qed.

(** The two ways a call of [ensure_directory] ends. *)
Lemma ensure_directory_cases (path : Path) (w : world) :
  (∃ w', ensure_directory path w = (Return (), w')
         ∧ cwd w' = cwd w ∧ out w' = out w
         ∧ node_at w' (locate w (path_parent path)) = Some Dir
         ∧ (∀ key n, node_at w key = Some n → node_at w' key = Some n)
         ∧ (∀ key content, node_at w' key = Some (File content) →
                           node_at w key = Some (File content))
         ∧ (∀ key, ¬ key `prefix_of` locate w (path_parent path) →
                   node_at w' key = node_at w key))
  ∨ (∃ e key content,
       ensure_directory path w = (Raise e, w)
       ∧ e ≠ ValueError
       ∧ key `prefix_of` locate w (path_parent path)
       ∧ node_at w key = Some (File content)).
Proof.
  unfold ensure_directory. io_simpl.
  destruct (mkdir_parents_spec (rev (locate w (path_parent path))) w)
    as [(w' & Hrun & Hcwd & Hout & Hdir & Hframe)
       |(e & key & content & Hrun & He & Hk & Hfile)];
    rewrite rev_involutive in *.
  - left. exists w'. split_and!; [done..| | |].
    + intros key n Hn. destruct (Hframe key) as [->|(Hnone & _)]; [done|].
      by rewrite Hnone in Hn.
    + intros key content Hn.
      destruct (Hframe key) as [<-|(_ & Hd & _)]; [done|].
      by rewrite Hd in Hn.
    + intros key Hk. by destruct (Hframe key) as [?|(_ & _ & ?)].
  - right. exists e, key, content. split_and!; [done| |done..].
    by destruct He as [-> | ->].
Qed.

(** X1. When [ensure_directory] returns, the parent of the path is a
    directory, every entry that was there is still there with its content,
    no file has appeared, the console and the current directory are as
    before, and a second call returns with nothing changed. *)
Theorem ensure_directory_spec (path : Path) (w w' : world) :
  ensure_directory path w = (Return (), w') →
  cwd w' = cwd w ∧ out w' = out w
  ∧ node_at w' (locate w (path_parent path)) = Some Dir
  ∧ (∀ key n, node_at w key = Some n → node_at w' key = Some n)
  ∧ (∀ key content, node_at w' key = Some (File content) →
                    node_at w key = Some (File content))
  ∧ ensure_directory path w' = (Return (), w').
Proof.
  intros Hrun.
  destruct (ensure_directory_cases path w)
    as [(w1 & Hrun1 & Hcwd & Hout & Hdir & Hkeep & Hfiles & _)
       |(e & key & content & Hraise & _)].
  - rewrite Hrun in Hrun1. injection Hrun1 as <-.
    split_and!; [done..|].
    apply ensure_directory_existing. unfold locate in *. by rewrite Hcwd.
  - rewrite Hrun in Hraise. discriminate Hraise.
Qed.

Lemma ensure_directory_spec_witness :
  ∃ w', ensure_directory (test_path login_activity) demo_world
        = (Return (), w')
        ∧ node_at w' (locate demo_world (path_parent (test_path login_activity)))
          = Some Dir
        ∧ node_at w' (locate demo_world login_path) = Some (File login_source).
Proof.
  destruct (ensure_directory (test_path login_activity) demo_world)
    as [o w'] eqn:Hrun.
  assert (o = Return ()) as ->.
  { change o with (o, w').1. rewrite <- Hrun. vm_compute. reflexivity. }
  exists w'. split; [reflexivity|].
  destruct (ensure_directory_spec (test_path login_activity) demo_world w'
              Hrun) as (_ & _ & Hdir & Hkeep & _).
  split; [exact Hdir|]. apply Hkeep. vm_compute. reflexivity.
Defined.

(** ** What [write_tests] leaves behind *)

Lemma same_files_refl w : same_files w w.
Proof. by intros key content. Qed.

Lemma same_files_trans w1 w2 w3 :
  same_files w1 w2 → same_files w2 w3 → same_files w1 w3.
Proof. intros H12 H23 key content. etrans; [apply H23|apply H12]. Qed.

Lemma ensure_directory_same_files path w w' :
  ensure_directory path w = (Return (), w') → same_files w w'.
Proof.
  intros Hrun key content.
  destruct (ensure_directory_cases path w)
    as [(w1 & Hrun1 & _ & _ & _ & Hkeep & Hfiles & _)
       |(e & ? & ? & Hrun1 & _)]; rewrite Hrun1 in Hrun; [|done].
  injection Hrun as <-. split; [apply Hfiles | apply Hkeep].
Qed.

(** A run of the loop that returns has skipped every unit: the list is the
    one it started with and no file has changed. *)
Lemma write_loop_returns_files set force components : ∀ written w result w',
  Forall (λ c, anchored (test_path c) = false) components →
  write_loop set force components written w = (Return result, w') →
  result = written ∧ cwd w' = cwd w ∧ same_files w w'.
Proof.
  induction components as [|component components IH];
    intros written w result w' Hrel.
  - intros [= <- <-]. split_and!; [done..|apply same_files_refl].
  - apply Forall_cons in Hrel as [Hc Hrel].
    rewrite write_loop_cons. io_simpl.
    destruct (ensure_directory_cases (test_path component) w)
      as [(w1 & Hrun1 & Hcwd & _)|(e & ? & ? & Hrun1 & _)];
      rewrite Hrun1; [|done].
    apply ensure_directory_same_files in Hrun1.
    destruct (bool_decide _ && negb force).
    + intros (-> & Hcwd2 & Hfiles)%IH; [|done].
      split_and!; [done|by rewrite <- Hcwd|].
      eapply same_files_trans; [exact Hrun1|]. exact Hfiles.
    + destruct (write_text _ _ w1) as [[[]|e] w2]; [|done].
      by rewrite relative_to_cwd.
Qed.

(** X2. If [write_tests] returns, on units whose test paths are relative,
    it has written nothing: the list it returns is empty, every file of the
    tree has the content it had and no file has appeared. *)
Theorem write_tests_returns_after_skips (set : set_order)
    (components : list Component) (force : bool) (w w' : world)
    (result : list Path) :
  Forall (λ c, anchored (test_path c) = false) components →
  write_tests set components force w = (Return result, w') →
  result = []
  ∧ cwd w' = cwd w
  ∧ ∀ key content,
      node_at w' key = Some (File content)
      ↔ node_at w key = Some (File content).
Proof.
  intros Hrel Hrun. unfold write_tests in Hrun.
  apply (write_loop_returns_files _ _ _ _ _ _ _ Hrel Hrun).
Qed.

Lemma write_tests_returns_after_skips_witness :
  let rerun := write_tests insertion_order [login_activity] false
                 scaffolded_world in
  rerun.1 = Return []
  ∧ ∀ key content,
      node_at rerun.2 key = Some (File content)
      ↔ node_at scaffolded_world key = Some (File content).
Proof.
  cbv zeta.
  destruct (write_tests insertion_order [login_activity] false scaffolded_world)
    as [o w'] eqn:Hrun.
  assert (o = Return []) as ->.
  { change o with (o, w').1. rewrite <- Hrun. vm_compute. reflexivity. }
  split; [reflexivity|].
  apply (write_tests_returns_after_skips insertion_order [login_activity]
           false scaffolded_world w' []); [|exact Hrun].
  repeat constructor.
Defined.

Lemma write_text_creates p content w :
  (∃ old, node_at w (locate w p) = Some (File old))
  ∨ (node_at w (locate w p) = None
     ∧ node_at w (removelast (locate w p)) = Some Dir) →
  write_text p content w
  = (Return (),
     World (cwd w) (<[locate w p := File content]> (nodes w)) (out w)).
Proof.
  unfold write_text. io_simpl.
  intros [[old ->]|[-> ->]]; done.
Qed.

Lemma write_text_directory p content w :
  node_at w (locate w p) = Some Dir →
  write_text p content w = (Raise IsADirectoryError, w).
Proof. unfold write_text. io_simpl. by intros ->. Qed.

(** The step of the loop that writes: the report of the written file raises
    when the test path is relative. *)
Lemma write_loop_writes set force c cs written w w1 :
  ensure_directory (test_path c) w = (Return (), w1) →
  bool_decide (is_Some (node_at w1 (locate w1 (test_path c))))
  && negb force = false →
  anchored (test_path c) = false →
  write_loop set force (c :: cs) written w
  = match write_text (test_path c) (test_class set c) w1 with
    | (Return _, w2) => (Raise ValueError, w2)
    | (Raise e, w2) => (Raise e, w2)
    end.
Proof.
  intros Hdir Hwrite Hrel. rewrite write_loop_cons. io_simpl.
  rewrite Hdir, Hwrite.
  destruct (write_text _ _ w1) as [[[]|e] w2]; [|done].
  by rewrite relative_to_cwd.
Qed.

Lemma not_prefix_longer {A} (l : list A) (x : A) : ¬ (l ++ [x]) `prefix_of` l.
Proof.
  intros Hp%prefix_length. rewrite length_app in Hp. simpl in Hp. lia.
Qed.

(** The first unit of the loop, when it has to be written. *)
Lemma write_loop_first_raises (set : set_order) (c : Component)
    (cs : list Component) (written : list Path) (force : bool) (w : world) :
  all_chars no_slash (package c) = true →
  all_chars no_slash (name c) = true →
  force = true ∨ node_at w (locate w (test_path c)) = None →
  ∃ e w',
    write_loop set force (c :: cs) written w = (Raise e, w')
    ∧ out w' = out w
    ∧ (e = ValueError
       ∧ node_at w' (locate w (test_path c))
         = Some (File (test_class set c))
       ∨ e ≠ ValueError
         ∧ ∀ key content,
             node_at w' key = Some (File content)
             ↔ node_at w key = Some (File content)).
Proof.
  intros Hpkg Hname Hneed.
  pose proof (test_path_relative c Hpkg Hname) as Hpath.
  set (ps := ["app"; "src"; "test"; "java"]
               ++ filter (λ s, s ≠ "") (split_on is_dot (package c))) in *.
  rewrite app_assoc in Hpath. fold ps in Hpath. clearbody ps.
  assert (anchored (test_path c) = false) as Hrel by by rewrite Hpath.
  assert (locate w (test_path c)
          = locate w (path_parent (test_path c))
              ++ [test_class_name c +:+ ".java"]) as Hkey.
  { rewrite Hpath. unfold locate, path_parent. cbn [anchored parts].
    by rewrite removelast_last, app_assoc. }
  destruct (ensure_directory_cases (test_path c) w)
    as [(w1 & Hrun1 & Hcwd & Hout & Hdir & Hkeep & Hfiles & Hother)
       |(e & key & content & Hrun1 & He & _)].
  2:{ exists e, w. rewrite write_loop_cons. io_simpl. rewrite Hrun1.
      split_and!; [done..|]. right. split; [done|]. apply same_files_refl. }
  assert (locate w1 (test_path c) = locate w (test_path c)) as Hloc
    by (unfold locate; by rewrite Hcwd).
  assert (node_at w1 (locate w (test_path c))
          = node_at w (locate w (test_path c))) as Hdest.
  { apply Hother. rewrite Hkey. apply not_prefix_longer. }
  assert (bool_decide (is_Some (node_at w1 (locate w1 (test_path c))))
          && negb force = false) as Hwrite.
  { rewrite Hloc, Hdest. destruct Hneed as [-> | ->]; [apply andb_false_r|done]. }
  rewrite (write_loop_writes _ _ _ _ _ _ w1 Hrun1 Hwrite Hrel).
  destruct (node_at w1 (locate w1 (test_path c))) as [[old|]|] eqn:Hnode.
  - rewrite write_text_creates by eauto.
    eexists _, _. split; [done|]. split; [done|]. left. split; [done|].
    rewrite <- Hloc. apply node_at_insert. by eapply node_at_file_key.
  - rewrite write_text_directory by done.
    eexists _, _. split; [done|]. split; [done|]. right. split; [done|].
    by eapply ensure_directory_same_files.
  - rewrite write_text_creates; last first.
    { right. split; [done|]. rewrite Hloc, Hkey, removelast_last. done. }
    eexists _, _. split; [done|]. split; [done|]. left. split; [done|].
    rewrite <- Hloc. apply node_at_insert.
    rewrite Hloc, Hkey. by destruct (locate w (path_parent (test_path c))).
Qed.

(** X3. When the first unit has to be written, because [force] is on or
    its test file is not there, [write_tests] raises and prints nothing:
    either the test file now holds the generated text and the error is
    the [ValueError] of the line that reports it, or the file system
    refused and no file has changed.  The name and the package of the unit
    have no slash. *)
Theorem write_tests_raises (set : set_order) (c : Component)
    (cs : list Component) (force : bool) (w : world) :
  all_chars no_slash (package c) = true →
  all_chars no_slash (name c) = true →
  force = true ∨ node_at w (locate w (test_path c)) = None →
  ∃ e w',
    write_tests set (c :: cs) force w = (Raise e, w')
    ∧ out w' = out w
    ∧ (e = ValueError
       ∧ node_at w' (locate w (test_path c))
         = Some (File (test_class set c))
       ∨ e ≠ ValueError
         ∧ ∀ key content,
             node_at w' key = Some (File content)
             ↔ node_at w key = Some (File content)).
Proof. apply write_loop_first_raises. Qed.

Lemma write_tests_raises_witness :
  ∃ w', write_tests insertion_order [login_activity] false demo_world
        = (Raise ValueError, w')
        ∧ out w' = []
        ∧ node_at w' (locate demo_world (test_path login_activity))
          = Some (File (test_class insertion_order login_activity)).
Proof.
  destruct (write_tests_raises insertion_order login_activity [] false
              demo_world)
    as (e & w' & Hrun & Hout & [[-> Hfile]|[He Hsame]]);
    [vm_compute; reflexivity..|right; vm_compute; reflexivity| |].
  - exists w'. split; [exact Hrun|]. split; [exact Hout|exact Hfile].
  - assert ((write_tests insertion_order [login_activity] false demo_world).1
            = Raise ValueError) as Hv by (vm_compute; reflexivity).
    rewrite Hrun in Hv. injection Hv as ->. by destruct He.
Defined.

(** ** More on the build file *)

Lemma prefix_app_l (a b s : string) :
  String.prefix (a +:+ b) s = true → String.prefix a s = true.
Proof.
  revert s. induction a as [|c a IH]; intros s.
  - by destruct s.
  - rewrite app_cons. destruct s as [|c' s]; [done|].
    change (String.prefix (String c (a +:+ b)) (String c' s))
      with (if ascii_dec c c' then String.prefix (a +:+ b) s else false).
    change (String.prefix (String c a) (String c' s))
      with (if ascii_dec c c' then String.prefix a s else false).
    destruct (ascii_dec c c'); [apply IH|done].
Qed.

(** A text that contains a text contains its beginnings. *)
Lemma contains_beginning (a b hay : string) :
  contains (a +:+ b) hay = true → contains a hay = true.
Proof.
  induction hay as [|c hay IH].
  - assert (∀ n, contains n "" = String.prefix n "") as Hnil
      by (intros n; apply orb_false_r).
    rewrite !Hnil. apply prefix_app_l.
  - rewrite !contains_cons.
    intros [Hp%prefix_app_l|Hc%IH]%orb_true_iff;
      [by rewrite Hp|by rewrite Hc, orb_true_r].
Qed.

Lemma report_marker_decides content :
  contains "jacocoTestReport" content && contains "jacoco" content
  = contains "jacocoTestReport" content.
Proof.
  destruct (contains "jacocoTestReport" content) eqn:Hc; [|done].
  by rewrite (contains_beginning "jacoco" "TestReport" content Hc).
Qed.

(** X5. On a build file that is there, the report-task token alone decides:
    when [jacocoTestReport] occurs anywhere in the text the file is left as
    it is and the run only reports so, otherwise the block is appended,
    whether or not the text mentions [jacoco]. *)
Theorem ensure_jacoco_marker (build_gradle : Path) (w : world)
    (content : string) :
  node_at w (locate w build_gradle) = Some (File content) →
  ensure_jacoco build_gradle w
  = if contains "jacocoTestReport" content
    then (Return (), World (cwd w) (nodes w) (out w ++ [ALREADY]))
    else (Return (),
          World (cwd w)
            (<[locate w build_gradle :=
                 File (rstrip content +:+ nl +:+ nl +:+ JACOCO_SNIPPET)]>
               (nodes w))
            (out w ++ [APPENDED build_gradle])).
Proof.
  intros Hnode. destruct (contains "jacocoTestReport" content) eqn:Hc.
  - apply (ensure_jacoco_configured _ _ content); [done|].
    by rewrite report_marker_decides.
  - apply ensure_jacoco_updates; [done|]. by rewrite report_marker_decides.
Qed.

Lemma ensure_jacoco_marker_witness :
  ensure_jacoco gradle_path commented_world
  = (Return (),
     World (cwd commented_world) (nodes commented_world) [ALREADY]).
Proof.
  rewrite (ensure_jacoco_marker gradle_path commented_world
             "// TODO jacocoTestReport"); [|vm_compute; reflexivity].
  reflexivity.
Defined.

(** X6. Whether it returns or raises, [ensure_jacoco] on a path without
    [..] touches nothing but the build file: the current directory, the
    set of entries of the tree and every entry at another place are as
    before.  A build file that is missing is not created, a directory in
    its place stays a directory and a file stays a file. *)
Theorem ensure_jacoco_frame (build_gradle : Path) (w : world) :
  ".." ∉ locate w build_gradle →
  let w' := (ensure_jacoco build_gradle w).2 in
  cwd w' = cwd w
  ∧ dom (nodes w') = dom (nodes w)
  ∧ (∀ key, key ≠ locate w build_gradle → nodes w' !! key = nodes w !! key)
  ∧ match node_at w (locate w build_gradle) with
    | None => node_at w' (locate w build_gradle) = None
    | Some Dir => node_at w' (locate w build_gradle) = Some Dir
    | Some (File _) =>
        ∃ content', node_at w' (locate w build_gradle) = Some (File content')
    end.
Proof.
  intros _. cbv zeta.
  destruct (node_at w (locate w build_gradle)) as [[content|]|] eqn:Hnode.
  - destruct (contains "jacocoTestReport" content
              && contains "jacoco" content) eqn:Hmark.
    + rewrite (ensure_jacoco_configured build_gradle w content) by done.
      cbn [fst snd cwd nodes]. split_and!; [done..|].
      exists content. exact Hnode.
    + rewrite (ensure_jacoco_updates build_gradle w content) by done.
      cbn [fst snd cwd nodes].
      assert (locate w build_gradle ≠ []) as Hkey.
      { intros Hnil. rewrite Hnil in Hnode. discriminate Hnode. }
      split_and!; [done| |by intros; apply lookup_insert_ne|].
      * rewrite dom_insert_L.
        apply subseteq_union_1_L, singleton_subseteq_l, elem_of_dom.
        destruct (locate w build_gradle) as [|x key]; [done|].
        unfold node_at in Hnode. by rewrite Hnode.
      * eexists. by apply node_at_insert.
  - by rewrite (ensure_jacoco_directory build_gradle w).
  - by rewrite (ensure_jacoco_absent build_gradle w).
Qed.

Lemma ensure_jacoco_frame_witness :
  nodes (ensure_jacoco gradle_path demo_world).2
    !! locate demo_world login_path
  = Some (File login_source).
Proof.
  rewrite (proj1 (proj2 (proj2 (ensure_jacoco_frame gradle_path demo_world
                                  ltac:(apply (bool_decide_unpack _); vm_compute; exact I))))).
  - vm_compute. reflexivity.
  - vm_compute. discriminate.
Defined.

(** ** More on classification *)

Lemma fragments_types text pkg path patterns :
  (type <$> flat_map (fragment text pkg path) patterns)
    `sublist_of` patterns.*1.
Proof.
  induction patterns as [|[ty pattern] patterns IH]; simpl; [done|].
  rewrite fmap_app. destruct (search pattern text) as [m|] eqn:Hs.
  - rewrite (fragment_Some _ _ _ _ _ _ Hs). simpl. by apply sublist_skip.
  - rewrite (fragment_None _ _ _ _ _ Hs). simpl. by apply sublist_cons.
Qed.

(** X7. The units of a call of [parse_component_file] have kinds that follow
    the order of the table, each at most once; the name of a unit is made of
    word characters and is not empty, its package is made of word
    characters and dots, and its test path is relative. *)
Theorem parse_component_file_units (path : Path) (w : world) :
  ∃ components w',
    parse_component_file path w = (Return components, w')
    ∧ (type <$> components)
        `sublist_of` ["Activity"; "Service"; "BroadcastReceiver"; "ViewModel"]
    ∧ Forall (λ c, name c ≠ ""
                   ∧ all_chars is_word (name c) = true
                   ∧ all_chars is_word_or_dot (package c) = true
                   ∧ anchored (test_path c) = false)
             components.
Proof.
  destruct (parse_component_file_cases path w)
    as [(text & Hext & Hnode)|Hskip].
  - exists (classify text path), w.
    split; [by apply parse_component_file_reads|]. split.
    + rewrite classify_spec. apply (fragments_types _ _ _ COMPONENT_PATTERNS).
    + pose proof (classify_chars text path) as Hchars.
      pose proof (classify_test_paths text path) as Hpaths.
      rewrite Forall_forall in Hchars, Hpaths. apply Forall_forall.
      intros c Hc. destruct (Hchars c Hc) as (? & ? & ?).
      split_and!; [done..|]. by apply Hpaths.
  - eexists [], _. split; [by apply parse_component_file_skips|].
    split; [apply sublist_nil_l|constructor].
Qed.

(** X8. Whether it returns or raises, [parse_component_file] changes
    neither the tree nor the current directory.  A path whose extension is
    not one of the two is not looked up at all: whatever is at the path,
    the call returns no unit and prints one line that names the path.  A
    call that returns units has printed nothing. *)
Theorem parse_component_file_effects (path : Path) (w : world) :
  let run := parse_component_file path w in
  cwd run.2 = cwd w ∧ nodes run.2 = nodes w
  ∧ (str_in (path_suffix path) SUPPORTED_EXTENSIONS = false →
     run = (Return [],
            World (cwd w) (nodes w)
              (out w ++ ["Skipping unsupported or missing file: "
                         +:+ path_str path])))
  ∧ (∀ components, run.1 = Return components → components ≠ [] →
                   out run.2 = out w).
Proof.
  cbv zeta.
  destruct (parse_component_file_cases path w)
    as [(text & Hext & Hnode)|Hskip].
  - rewrite (parse_component_file_reads path w text) by done.
    split_and!; [done..| |done]. intros Hno. by rewrite Hno in Hext.
  - rewrite (parse_component_file_skips path w) by done.
    split_and!; [done..|]. cbn [fst]. by intros components [= <-].
Qed.

Lemma parse_component_file_effects_witness :
  parse_component_file gradle_path demo_world
  = (Return [],
     World (cwd demo_world) (nodes demo_world)
       (out demo_world ++ ["Skipping unsupported or missing file: "
                           +:+ path_str gradle_path])).
Proof.
  apply (proj1 (proj2 (proj2
           (parse_component_file_effects gradle_path demo_world)))).
  vm_compute. reflexivity.
Defined.

(** ** What a scaffold contains *)

Lemma prefix_cons (c c' : ascii) (n s : string) :
  String.prefix (String c n) (String c' s)
  = if ascii_dec c c' then String.prefix n s else false.
Proof. reflexivity. Qed.

Lemma prefix_empty (s : string) : String.prefix "" s = true.
Proof. by destruct s. Qed.

Lemma prefix_app_same (a n m : string) :
  String.prefix (a +:+ n) (a +:+ m) = String.prefix n m.
Proof.
  induction a as [|c a IH]; [done|].
  rewrite !app_cons, prefix_cons. by destruct (ascii_dec c c).
Qed.

Lemma prefix_self (n r : string) : String.prefix n (n +:+ r) = true.
Proof.
  induction n as [|c n IH]; [apply prefix_empty|].
  rewrite app_cons, prefix_cons. by destruct (ascii_dec c c).
Qed.

Lemma prefix_refl (n : string) : String.prefix n n = true.
Proof.
  induction n as [|c n IH]; [done|].
  rewrite prefix_cons. by destruct (ascii_dec c c).
Qed.

Lemma prefix_extend (n s t : string) :
  String.prefix n s = true → String.prefix n (s +:+ t) = true.
Proof.
  revert s. induction n as [|c n IH]; intros s;
    [intros _; apply prefix_empty|].
  destruct s as [|c' s]; [done|].
  rewrite app_cons, !prefix_cons. destruct (ascii_dec c c'); [apply IH|done].
Qed.

Lemma contains_prefix (n s : string) :
  String.prefix n s = true → contains n s = true.
Proof.
  intros Hp. destruct s as [|c s].
  - change (contains n "") with (String.prefix n "" || false). by rewrite Hp.
  - by rewrite contains_cons, Hp.
Qed.

(** What occurs in a text occurs in the text with something after it. *)
Lemma contains_left (n x y : string) :
  contains n x = true → contains n (x +:+ y) = true.
Proof.
  induction x as [|c x IH].
  - intros Hn. apply contains_prefix.
    destruct n; [apply prefix_empty|discriminate Hn].
  - rewrite app_cons, !contains_cons.
    intros [Hp|Hc]%orb_true_iff.
    + by rewrite <- app_cons, (prefix_extend _ _ _ Hp).
    + by rewrite IH, orb_true_r.
Qed.

Lemma contains_concat (f : string → string) (sep x : string)
    (l : list string) :
  x ∈ l → contains (f x) (String.concat sep (f <$> l)) = true.
Proof.
  induction l as [|y l IH]; [by intros ?%elem_of_nil|].
  intros [->|Hx]%elem_of_cons.
  - destruct l as [|z zs]; simpl;
      [apply contains_prefix, prefix_refl
      |apply contains_left, contains_prefix, prefix_refl].
  - specialize (IH Hx). destruct l as [|z zs]; [by apply elem_of_nil in Hx|].
    change (String.concat sep (f <$> y :: z :: zs))
      with (f y +:+ sep +:+ String.concat sep (f <$> z :: zs)).
    by do 2 apply contains_app_r.
Qed.

(** Looks for the needle at the pieces of a text made by [+:+]. *)
Ltac find_text :=
  first
    [ apply contains_prefix; rewrite ?prefix_app_same;
      solve [apply prefix_self | apply prefix_refl]
    | apply contains_app_r; find_text
    | apply contains_left; find_text ].

(** X9. The scaffold of a unit contains the resolution test on its
    qualified name, the negative test on that name followed by [_Missing],
    the declaration of the test class, and the construction of the lenient
    double of the unit; when the package is not empty the scaffold begins
    with an empty line and the declaration of the package. *)
Theorem test_class_content (set : set_order) (c : Component) :
  let text := test_class set c in
  contains ("        Class<?> clazz = Class.forName(" +:+ dq
            +:+ qualified_name c +:+ dq +:+ ");") text = true
  ∧ contains ("        Class.forName(" +:+ dq +:+ qualified_name c
              +:+ "_Missing" +:+ dq +:+ ");") text = true
  ∧ contains ("public class " +:+ test_class_name c +:+ " {") text = true
  ∧ contains (name c +:+ " instance = Mockito.mock(" +:+ name c
              +:+ ".class, Mockito.withSettings().lenient());") text = true
  ∧ (package c ≠ "" →
     String.prefix (nl +:+ ("package " +:+ package c +:+ ";") +:+ nl) text
     = true).
Proof.
  cbv zeta.
  unfold test_class, test_body, generate_valid_invalid_tests,
    generate_mockito_test.
  cbv zeta. cbn [String.concat].
  split_and!; [find_text..|].
  intros Hpkg. destruct (package c) as [|a pkg]; [done|]. cbn [truthy].
  rewrite !prefix_app_same. apply prefix_self.
Qed.

Lemma test_class_content_witness :
  String.prefix (nl +:+ "package com.app;" +:+ nl)
    (test_class insertion_order login_activity) = true.
Proof.
  change (nl +:+ "package com.app;" +:+ nl)
    with (nl +:+ ("package " +:+ package login_activity +:+ ";") +:+ nl).
  apply (proj2 (proj2 (proj2 (proj2
           (test_class_content insertion_order login_activity))))).
  discriminate.
Defined.

(** X10. Every import of the unit has its line in the scaffold. *)
Theorem test_class_imports (set : set_order) (c : Component) (x : string) :
  x ∈ generate_imports set c →
  contains ("import " +:+ x +:+ ";") (test_class set c) = true.
Proof.
  intros Hx. unfold test_class. cbv zeta.
  do 4 apply contains_app_r. apply contains_left.
  by apply (contains_concat (λ item, "import " +:+ item +:+ ";")).
Qed.

Lemma test_class_imports_witness :
  contains "import android.app.Activity;"
    (test_class insertion_order login_activity) = true.
Proof.
  apply (test_class_imports insertion_order login_activity
           "android.app.Activity").
  vm_compute. repeat constructor.
Defined.

(** ** Scanning *)

Lemma parse_component_file_run path w :
  parse_component_file path w
  = (Return (units_at w path),
     World (cwd w) (nodes w) (out w ++ skip_line w path)).
Proof.
  unfold units_at, skip_line, readable, is_file_at.
  destruct (parse_component_file_cases path w)
    as [(text & Hext & Hnode)|Hskip].
  - rewrite (parse_component_file_reads path w text) by done.
    rewrite Hext, Hnode. simpl. rewrite app_nil_r. by destruct w.
  - rewrite parse_component_file_skips by done.
    destruct Hskip as [->|Hskip]; [done|].
    destruct (node_at w (locate w path)) as [[text|]|];
      [by destruct (Hskip text)|..];
      by destruct (str_in (path_suffix path) SUPPORTED_EXTENSIONS).
Qed.

Lemma scan_loop_run paths : ∀ components w,
  scan_loop paths components w
  = (Return (components ++ flat_map (units_at w) paths),
     World (cwd w) (nodes w) (out w ++ flat_map (skip_line w) paths)).
Proof.
  induction paths as [|path paths IH]; intros components w.
  - simpl. rewrite !app_nil_r. by destruct w.
  - cbn [scan_loop]. io_simpl. rewrite parse_component_file_run.
    rewrite IH. cbn [cwd nodes out flat_map]. by rewrite <- !app_assoc.
Qed.





Lemma discover_components_run walk root source_root w :
  let dir := scanned_root root source_root in
  discover_components walk root source_root w
  = if bool_decide (is_Some (node_at w (locate w dir)))
    then (Return (flat_map (units_at w) (scanned_paths walk w dir)),
          World (cwd w) (nodes w)
            (out w ++ flat_map (skip_line w) (scanned_paths walk w dir)))
    else (Return [],
          World (cwd w) (nodes w) (out w ++ [NOTHING_TO_SCAN dir])).
Proof.
  cbv zeta. unfold discover_components, scanned_root, rglob. io_simpl.
  destruct (bool_decide _); io_simpl; [|done].
  by rewrite scan_loop_run.
Qed.






(** ** The command line *)

Lemma bind_Return {A B} (m : io A) (f : A → io B) (w w' : world) (b : B) :
  (m ≫= f) w = (Return b, w') →
  ∃ a w1, m w = (Return a, w1) ∧ f a w1 = (Return b, w').
Proof.
  unfold mbind, io_bind. destruct (m w) as [[a|e] w1]; [eauto|done].
Qed.

Lemma bind_run {A B} (m : io A) (f : A → io B) (w w1 : world) (a : A) :
  m w = (Return a, w1) → (m ≫= f) w = f a w1.
Proof. unfold mbind, io_bind. by intros ->. Qed.

Lemma bind_raise {A B} (m : io A) (f : A → io B) (w w1 : world) (e : exn) :
  m w = (Raise e, w1) → (m ≫= f) w = (Raise e, w1).
Proof. unfold mbind, io_bind. by intros ->. Qed.

Lemma units_at_test_paths w path :
  Forall (λ c, anchored (test_path c) = false) (units_at w path).
Proof.
  unfold units_at.
  destruct (str_in (path_suffix path) SUPPORTED_EXTENSIONS); [|constructor].
  destruct (node_at w (locate w path)) as [[text|]|]; [|constructor..].
  apply classify_test_paths.
Qed.

Lemma scanned_test_paths w paths :
  Forall (λ c, anchored (test_path c) = false) (flat_map (units_at w) paths).
Proof.
  induction paths as [|path paths IH]; simpl; [constructor|].
  apply Forall_app. split; [apply units_at_test_paths|done].
Qed.

(** The step of [main] that writes the scaffolds, when it returns. *)
Lemma generate_returns set force components msg1 msg2 w w' :
  Forall (λ c, anchored (test_path c) = false) components →
  match components with
  | _ :: _ => print msg1;; write_tests set components force;; mret ()
  | [] => print msg2
  end w = (Return (), w') →
  cwd w' = cwd w ∧ same_files w w'.
Proof.
  intros Hrel. destruct components as [|c cs].
  - intros [= <-]. split; [done|]. by intros key content.
  - intros ([] & w1 & [= <-] & (result & w2 & Hrun & [= <-])%bind_Return)
             %bind_Return.
    unfold write_tests in Hrun.
    apply (write_loop_returns_files _ _ _ _ _ _ _ Hrel) in Hrun
      as (_ & Hcwd & Hfiles).
    done.
Qed.

(** [ensure_jacoco] leaves the entries at other places and the current
    directory as they are. *)
Lemma ensure_jacoco_elsewhere build_gradle w key :
  cwd (ensure_jacoco build_gradle w).2 = cwd w
  ∧ (key ≠ locate w build_gradle →
     node_at (ensure_jacoco build_gradle w).2 key = node_at w key).
Proof.
  destruct (node_at w (locate w build_gradle)) as [[content|]|] eqn:Hnode.
  - destruct (contains "jacocoTestReport" content
              && contains "jacoco" content) eqn:Hmark.
    + by rewrite (ensure_jacoco_configured build_gradle w content).
    + rewrite (ensure_jacoco_updates build_gradle w content) by done.
      split; [done|]. intros Hne. by apply node_at_insert_ne.
  - by rewrite (ensure_jacoco_directory build_gradle w).
  - by rewrite (ensure_jacoco_absent build_gradle w).
Qed.

(** X12. A run of [main] that ends without an error, with no coverage
    report to summarise, has written no scaffold: apart from the build
    file, every file of the tree has the content it had before and no file
    has appeared. *)
Theorem main_returns_without_scaffold (set : set_order) (walk : walk_order)
    (summarize_coverage : Path → io unit) (args : Args.t) (w w' : world) :
  Args.coverage_report args = None →
  main set walk summarize_coverage args w = (Return (), w') →
  ∀ key content,
    key ≠ locate w (gradle_of (Args.project_root args)) →
    node_at w' key = Some (File content)
    ↔ node_at w key = Some (File content).
Proof.
  intros Hcov Hrun. unfold main in Hrun. rewrite Hcov in Hrun.
  apply bind_Return in Hrun as ([] & w1 & Hgen & Hrun).
  apply bind_Return in Hrun as ([] & w2 & Hjac & [= <-]).
  assert (cwd w1 = cwd w ∧ same_files w w1) as [Hcwd Hfiles].
  { destruct (Args.source_file args) as [source_file|].
    - apply bind_Return in Hgen as (components & w0 & Hparse & Hgen).
      rewrite parse_component_file_run in Hparse. injection Hparse as <- <-.
      apply generate_returns in Hgen; [|apply units_at_test_paths].
      done.
    - apply bind_Return in Hgen as (components & w0 & Hscan & Hgen).
      rewrite discover_components_run in Hscan. cbv zeta in Hscan.
      destruct (bool_decide _); injection Hscan as <- <-.
      + apply generate_returns in Hgen; [|apply scanned_test_paths]. done.
      + injection Hgen as <-. split; [done|]. by intros key content. }
  intros key content Hkey. rewrite <- (Hfiles key content).
  destruct (Args.jacoco args).
  - fold (gradle_of (Args.project_root args)) in Hjac.
    destruct (ensure_jacoco_elsewhere (gradle_of (Args.project_root args))
                w1 key) as [_ Hother].
    rewrite Hjac in Hother. cbn [snd] in Hother. rewrite Hother; [done|].
    unfold locate in *. by rewrite Hcwd.
  - by injection Hjac as <-.
Qed.

Lemma main_returns_without_scaffold_witness :
  let run := main insertion_order stored_order no_report notes_args
               demo_world in
  run.1 = Return ()
  ∧ node_at run.2 (locate demo_world login_path) = Some (File login_source).
Proof.
  cbv zeta.
  destruct (main insertion_order stored_order no_report notes_args demo_world)
    as [o w'] eqn:Hrun.
  assert (o = Return ()) as ->.
  { change o with (o, w').1. rewrite <- Hrun. vm_compute. reflexivity. }
  split; [reflexivity|].
  apply (main_returns_without_scaffold insertion_order stored_order no_report
           notes_args demo_world w' eq_refl Hrun).
  - vm_compute. discriminate.
  - vm_compute. reflexivity.
Defined.

Lemma units_at_readable w path c cs :
  units_at w path = c :: cs →
  ∃ text, node_at w (locate w path) = Some (File text)
          ∧ skip_line w path = [] ∧ c ∈ classify text path.
Proof.
  unfold units_at, skip_line, readable, is_file_at.
  destruct (str_in (path_suffix path) SUPPORTED_EXTENSIONS); [|done].
  destruct (node_at w (locate w path)) as [[text|]|]; [|done..].
  intros Hc. exists text. split_and!; [done..|]. rewrite Hc. by left.
Qed.

(** X13. In the single-file mode of [main], when the first unit of the file
    has to be written, because [force] is on or its test file is not there,
    the run ends in an error right after the line that counts the units:
    the build file is not augmented and no coverage is summarised in that
    run, whatever the other arguments. *)
Theorem main_raises_after_count (set : set_order) (walk : walk_order)
    (summarize_coverage : Path → io unit) (args : Args.t) (w : world)
    (source_file : Path) (c : Component) (cs : list Component) :
  let target := target_of (Args.project_root args) source_file in
  Args.source_file args = Some source_file →
  units_at w target = c :: cs →
  Args.force args = true ∨ node_at w (locate w (test_path c)) = None →
  ∃ e w',
    main set walk summarize_coverage args w = (Raise e, w')
    ∧ out w'
      = out w ++ ["Discovered " +:+ pretty (length (c :: cs))
                  +:+ " component(s) in " +:+ path_str target].
Proof.
  cbv zeta. intros Hfile Hunits Hneed.
  destruct (units_at_readable _ _ _ _ Hunits) as (text & Hnode & Hskip & Hc).
  pose proof (classify_chars text
                (target_of (Args.project_root args) source_file)) as Hchars.
  rewrite Forall_forall in Hchars.
  destruct (Hchars c Hc) as (_ & Hname & Hpkg).
  set (msg := "Discovered " +:+ pretty (length (c :: cs))
              +:+ " component(s) in "
              +:+ path_str (target_of (Args.project_root args) source_file)).
  set (w1 := World (cwd w) (nodes w) ((out w ++ []) ++ [msg])).
  destruct (write_loop_first_raises set c cs [] (Args.force args) w1)
    as (e & w' & Hrun & Hout & _).
  { by apply (all_chars_impl _ _ _ word_or_dot_no_slash). }
  { by apply (all_chars_impl _ _ _ word_no_slash). }
  { exact Hneed. }
  exists e, w'. split; [|by rewrite Hout; cbn [out w1]; rewrite app_nil_r].
  unfold main. rewrite Hfile. fold (target_of (Args.project_root args) source_file).
  apply bind_raise.
  rewrite (bind_run _ _ w _ _ (parse_component_file_run _ w)).
  rewrite Hunits, Hskip.
  assert (print msg (World (cwd w) (nodes w) (out w ++ [])) = (Return (), w1))
    as Hprint by reflexivity.
  rewrite (bind_run _ _ _ _ _ Hprint).
  apply bind_raise. exact Hrun.
Qed.

Lemma main_raises_after_count_witness :
  ∃ e w',
    main insertion_order stored_order no_report login_args demo_world
    = (Raise e, w')
    ∧ out w'
      = ["Discovered 1 component(s) in /home/dev/project/app/src/main/java/com/app/LoginActivity.java"].
Proof.
  destruct (main_raises_after_count insertion_order stored_order no_report
              login_args demo_world login_path
              (MkComponent "LoginActivity" "com.app"
                 (target_of (Args.project_root login_args) login_path)
                 "Activity") [])
    as (e & w' & Hrun & Hout);
    [vm_compute; reflexivity..|right; vm_compute; reflexivity|].
  exists e, w'. split; [exact Hrun|]. rewrite Hout. vm_compute. reflexivity.
Defined.

(** ** The mocks of a scaffold *)

(** Decides the comparisons of the kind once the kind is known. *)
Ltac decide_kind :=
  repeat match goal with
         | |- context [String.eqb ?a ?b] =>
             let v := eval vm_compute in (String.eqb a b) in
             change (String.eqb a b) with v
         | |- context [str_in ?a ?l] =>
             let v := eval vm_compute in (str_in a l) in
             change (str_in a l) with v
         end;
  cbv iota.

(** X15. What the scaffold of a unit uses is declared and imported.  For
    the kinds Activity, Service and BroadcastReceiver it declares the mocks
    [context] and [intent], stubs the application context and imports
    [Context] and [Intent]; for the kind ViewModel it declares the mock of
    the saved state, builds a [SavedStateHandle] and imports it. *)
Theorem test_class_mocks (set : set_order) (c : Component) :
  let text := test_class set c in
  (type c ∈ LIFECYCLE_TYPES →
   contains "@Mock Context context;" text = true
   ∧ contains "@Mock Intent intent;" text = true
   ∧ contains
       "Mockito.when(context.getApplicationContext()).thenReturn(context);"
       text = true
   ∧ contains "import android.content.Context;" text = true
   ∧ contains "import android.content.Intent;" text = true)
  ∧ (type c = "ViewModel" →
     contains "@Mock SavedStateHandle savedStateHandle;" text = true
     ∧ contains "SavedStateHandle handle = new SavedStateHandle();" text
       = true
     ∧ contains "import androidx.lifecycle.SavedStateHandle;" text = true).
Proof.
  cbv zeta.
  assert (∀ x, x ∈ collected_imports c →
               contains ("import " +:+ x +:+ ";") (test_class set c) = true)
    as Himport.
  { intros x Hx. unfold test_class. cbv zeta.
    do 4 apply contains_app_r. apply contains_left.
    apply (contains_concat (λ item, "import " +:+ item +:+ ";")).
    by apply generate_imports_elem. }
  split.
  - intros Hty.
    assert (contains "import android.content.Context;" (test_class set c)
            = true
            ∧ contains "import android.content.Intent;" (test_class set c)
              = true) as [Hcontext Hintent].
    { assert (∀ x, x ∈ CONTEXT_IMPORTS → x ∈ collected_imports c) as Hsub.
      { intros x Hx. unfold collected_imports.
        rewrite (proj2 (str_in_elem _ _) Hty).
        repeat case_match; rewrite !elem_of_app; tauto. }
      split;
        [apply (Himport "android.content.Context")
        |apply (Himport "android.content.Intent")];
        apply Hsub; vm_compute; repeat constructor. }
    split_and!; [..|exact Hcontext|exact Hintent].
    all: unfold test_class, test_body, generate_valid_invalid_tests,
           generate_mockito_test; cbv zeta; cbn [String.concat];
         repeat (apply elem_of_cons in Hty as [->|Hty]);
         [| | |by apply elem_of_nil in Hty]; decide_kind.
    all: change (nl +:+ "    @Mock Context context;" +:+ nl +:+ "    ")
           with ((nl +:+ "    ") +:+ "@Mock Context context;"
                 +:+ (nl +:+ "    "));
         change ("    @Mock Intent intent;" +:+ nl)
           with ("    " +:+ "@Mock Intent intent;" +:+ nl).
    all: find_text.
  - intros Hty.
    assert (contains "import androidx.lifecycle.SavedStateHandle;"
              (test_class set c) = true) as Hsaved.
    { apply (Himport "androidx.lifecycle.SavedStateHandle").
      unfold collected_imports. rewrite Hty.
      change (str_in "ViewModel" LIFECYCLE_TYPES) with false.
      change ("ViewModel" =? "BroadcastReceiver")%string with false.
      change ("ViewModel" =? "Activity")%string with false.
      change ("ViewModel" =? "Service")%string with false.
      change ("ViewModel" =? "ViewModel")%string with true.
      cbv iota. rewrite !elem_of_app. left. right.
      vm_compute. repeat constructor. }
    split_and!; [..|exact Hsaved].
    all: unfold test_class, test_body, generate_valid_invalid_tests,
           generate_mockito_test; cbv zeta; cbn [String.concat];
         rewrite Hty; decide_kind.
    all: change ("    @Mock SavedStateHandle savedStateHandle;" +:+ nl)
           with ("    " +:+ "@Mock SavedStateHandle savedStateHandle;" +:+ nl).
    all: find_text.
Qed.

Lemma test_class_mocks_witness :
  contains "@Mock Intent intent;" (test_class insertion_order login_activity)
  = true
  ∧ contains "import androidx.lifecycle.SavedStateHandle;"
      (test_class insertion_order
         (MkComponent "NotesViewModel" "com.app" notes_path "ViewModel"))
    = true.
Proof.
  split.
  - apply (proj1 (test_class_mocks insertion_order login_activity)).
    vm_compute. repeat constructor.
  - apply (proj2 (test_class_mocks insertion_order
                    (MkComponent "NotesViewModel" "com.app" notes_path
                       "ViewModel"))).
    reflexivity.
Defined.
